(** * Manifest backend: registration, login, password reset, role gates and
      the time-series metrics query

    A shallow embedding of

    - [backend/src/controllers/authController.js]
      ([register], [verifyRegistration], [login], [resendOtp],
      [verifyOtpReset]),
    - [backend/src/middleware/auth.js] ([requireRole], [isAdmin], [isStaff]),
    - the metrics controller ([getTimeSeries]),

    over an explicit model of the three tables the handlers talk to.

    Conventions.
    - A field of a JSON request body is an [option string]: [None] is an
      absent ([undefined]) field, [Some s] a string.  JavaScript's truthiness
      of such a value is [truthy].
    - Instants ([Date] values) are integers, milliseconds since the epoch.
    - A handler is a computation in the monad [M]: it threads the [World]
      (tables, sent mail, console) and may raise; a raise keeps the writes
      made before it, as the source runs without transactions. *)

From Stdlib Require Import ZArith Lia Ascii String.
From stdpp Require Import base option list gmap strings sorting pretty.

Local Open Scope string_scope.
Local Open Scope Z_scope.

(** ** JavaScript values of the request *)

Module Js.

(** [!!v] for a value that is a string or [undefined]. *)
Definition truthy (v : option string) : bool :=
  match v with
  | Some s => negb (String.eqb s "")
  | None => false
  end.

(** The string held by a value already known to be truthy. *)
Definition str (v : option string) : string := default "" v.

(** [a || b] on such values. *)
Definition or_else (a : option string) (b : string) : string :=
  if truthy a then str a else b.

End Js.

(** ** Rows of the three tables *)

(** The Sequelize model files [models/User], [models/PendingUsers] and
    [models/Metric] are not part of the sources; the columns below are those
    of the data model of the specification, with the types the controllers
    store in them. *)

(** Modelled from the spec: the [User] model, whose file is missing.  A row
    has an id given by the store and a unique email. *)
Module User.
Record t := mk {
  id : Z;
  username : string;
  name : option string;
  email : string;
  passwordHash : string;
  phone : option string;
  role : string;
  otp : option string;
  otpExpires : option Z
}.
End User.

(** Modelled from the spec: the [PendingUser] model, whose file is missing.
    A row is keyed by its email; the record holds the other columns.  An
    instance, as [findByPk] returns it, is the pair of the key and the row. *)
Module PendingUser.
Record t := mk {
  username : string;
  name : option string;
  passwordHash : string;
  phone : option string;
  role : string;
  otp : string;
  expires : Z
}.
End PendingUser.

(** Modelled from the spec: the [Metric] model, whose file is missing.  A
    row is keyed by its date, a day (days since the epoch, UTC). *)
Module Metric.
Record t := mk {
  totalUsers : Z;
  totalSales : Z;
  totalConversions : Z
}.
End Metric.

Record Mail := mkMail {
  mail_to : string;
  mail_from : option string;
  mail_subject : string;
  mail_text : string
}.

(** ** The world a handler runs in *)

Record World := mkWorld {
  users : list User.t;
  nextUserId : Z;
  pendings : gmap string PendingUser.t;
  metrics : gmap Z Metric.t;
  outbox : list Mail;
  console : list string
}.

(** The library calls a handler makes; each may raise. *)
Inductive Op :=
| UserFindOne | UserFindByPk | UserCreate | UserSave
| PendingFindByPk | PendingUpsert | PendingSave | PendingDestroy
| MetricFindOrCreate | MetricSave | MetricFindAll
| BcryptHash | BcryptCompare | JwtSign | SendMail.

(** What a request does not control: the clock, the random sources, which
    library calls fail, and the process environment. *)
Record Env := mkEnv {
  clock : nat → Z;
  random : Z;
  salt : string;
  throws : Op → bool;
  JWT_SECRET : string;
  JWT_EXPIRES_IN : option string;
  SMTP_USER : option string
}.

(** [bcryptjs]: [hash password rounds] draws a salt; [compare] is its check.
    Nothing is assumed of either. *)
Class Bcrypt := {
  bcrypt_hash : string → Z → string → string;
  bcrypt_compare : string → string → bool
}.

(** ** State and exceptions *)

Inductive Outcome (A : Type) :=
| Ok (a : A)
| Throw (op : Op).
Arguments Ok {A} a.
Arguments Throw {A} op.

Definition M (A : Type) : Type := World → Outcome A * World.

Definition ret {A} (a : A) : M A := λ w, (Ok a, w).

Definition bind {A B} (m : M A) (k : A → M B) : M B :=
  λ w, match m w with
       | (Ok a, w') => k a w'
       | (Throw op, w') => (Throw op, w')
       end.

Definition throw {A} (op : Op) : M A := λ w, (Throw op, w).

(** [try { m } catch (err) { h err }]. *)
Definition try_catch {A} (m : M A) (h : Op → M A) : M A :=
  λ w, match m w with
       | (Ok a, w') => (Ok a, w')
       | (Throw op, w') => h op w'
       end.

Definition get : M World := λ w, (Ok w, w).
Definition put (w : World) : M unit := λ _, (Ok tt, w).

Notation "x <-- m ;; k" := (bind m (λ x, k))
  (at level 100, m at next level, right associativity).
Notation "m ;;; k" := (bind m (λ _, k))
  (at level 100, right associativity).

Definition console_log (line : string) : M unit :=
  λ w, (Ok tt, mkWorld (users w) (nextUserId w) (pendings w) (metrics w)
                       (outbox w) (console w ++ [line])).

(** ** Responses *)

Module Payload.
Record t := mk {
  id : Z;
  username : string;
  role : string;
  email : string
}.
End Payload.

(** [jsonwebtoken] is modelled symbolically: a token is the payload, the secret
    and the expiry option it was signed from, and decoding reads the payload
    back. *)
Inductive Token :=
| Signed (payload : Payload.t) (secret : string) (expiresIn : string).

Definition jwt_decode (t : Token) : Payload.t :=
  match t with Signed payload _ _ => payload end.

Record Point := mkPoint {
  date : Z;
  value : Z
}.

Module Series.
Record t := mk {
  users : list Point;
  sales : list Point;
  conversions : list Point
}.
End Series.

(** The JSON document and status a handler answers with.  A field that the
    document does not carry is [None]. *)
Record Response := mkResponse {
  status : Z;
  message : option string;
  token : option Token;
  user : option Payload.t;
  userId : option Z;
  data : option Series.t
}.

(** [res.status(code).json({ message })]. *)
Definition reply (code : Z) (msg : string) : Response :=
  mkResponse code (Some msg) None None None None.

(** ** The tables' operations *)

(** The first row of [users] with the given email. *)
Definition user_by_email (w : World) (email : string) : option User.t :=
  List.find (λ u, String.eqb (User.email u) email) (users w).

Section Operations.

Context (env : Env).

(** A library call that the environment may make fail. *)
Definition call (op : Op) : M unit :=
  λ w, if throws env op then (Throw op, w) else (Ok tt, w).

(** [User.findOne({ where: { email } })]. *)
Definition User_findOne (email : string) : M (option User.t) :=
  call UserFindOne ;;;
  w <-- get ;;
  ret (user_by_email w email).

(** [User.findByPk(id)]. *)
Definition User_findByPk (id : Z) : M (option User.t) :=
  call UserFindByPk ;;;
  w <-- get ;;
  ret (List.find (λ u, Z.eqb (User.id u) id) (users w)).

(** [User.create({...})]: the store assigns the id; [email] is unique, so a
    second row with a stored email is refused. *)
Definition User_create (row : Z → User.t) : M User.t :=
  call UserCreate ;;;
  w <-- get ;;
  let u := row (nextUserId w) in
  match user_by_email w (User.email u) with
  | Some _ => throw UserCreate
  | None =>
      put (mkWorld (users w ++ [u]) (nextUserId w + 1) (pendings w)
                   (metrics w) (outbox w) (console w)) ;;;
      ret u
  end.

(** [user.save()]: the row with the instance's id takes its columns. *)
Definition User_save (u : User.t) : M unit :=
  call UserSave ;;;
  w <-- get ;;
  put (mkWorld (List.map (λ x, if Z.eqb (User.id x) (User.id u) then u else x) (users w))
               (nextUserId w) (pendings w) (metrics w) (outbox w) (console w)).

(** [PendingUser.findByPk(email)]; an absent key finds nothing. *)
Definition PendingUser_findByPk (email : option string)
  : M (option (string * PendingUser.t)) :=
  call PendingFindByPk ;;;
  w <-- get ;;
  ret (match email with
       | Some e => match pendings w !! e with
                   | Some row => Some (e, row)
                   | None => None
                   end
       | None => None
       end).

(** [PendingUser.upsert({ email, ... })]. *)
Definition PendingUser_upsert (email : string) (row : PendingUser.t) : M unit :=
  call PendingUpsert ;;;
  w <-- get ;;
  put (mkWorld (users w) (nextUserId w) (<[email := row]> (pendings w))
               (metrics w) (outbox w) (console w)).

(** [pending.save()]. *)
Definition PendingUser_save (pending : string * PendingUser.t) : M unit :=
  call PendingSave ;;;
  w <-- get ;;
  put (mkWorld (users w) (nextUserId w)
               (alter (λ _, pending.2) pending.1 (pendings w))
               (metrics w) (outbox w) (console w)).

(** [pending.destroy()]. *)
Definition PendingUser_destroy (pending : string * PendingUser.t) : M unit :=
  call PendingDestroy ;;;
  w <-- get ;;
  put (mkWorld (users w) (nextUserId w) (delete pending.1 (pendings w))
               (metrics w) (outbox w) (console w)).

(** [Metric.findOrCreate({ where: { date }, defaults })]: the row and
    whether it was created. *)
Definition Metric_findOrCreate (day : Z) (defaults : Metric.t)
  : M ((Z * Metric.t) * bool) :=
  call MetricFindOrCreate ;;;
  w <-- get ;;
  match metrics w !! day with
  | Some row => ret ((day, row), false)
  | None =>
      put (mkWorld (users w) (nextUserId w) (pendings w)
                   (<[day := defaults]> (metrics w)) (outbox w) (console w)) ;;;
      ret ((day, defaults), true)
  end.

(** [metric.save()]. *)
Definition Metric_save (metric : Z * Metric.t) : M unit :=
  call MetricSave ;;;
  w <-- get ;;
  put (mkWorld (users w) (nextUserId w) (pendings w)
               (alter (λ _, metric.2) metric.1 (metrics w))
               (outbox w) (console w)).

(** [transporter.sendMail({...})]. *)
Definition sendMail (m : Mail) : M unit :=
  call SendMail ;;;
  w <-- get ;;
  put (mkWorld (users w) (nextUserId w) (pendings w) (metrics w)
               (outbox w ++ [m]) (console w)).

(** [jwt.sign(payload, secret, { expiresIn })]. *)
Definition jwt_sign (payload : Payload.t) (secret expiresIn : string) : M Token :=
  call JwtSign ;;;
  ret (Signed payload secret expiresIn).

Context `{Bcrypt}.

(** [bcrypt.hash(password, rounds)]. *)
Definition hash (password : string) (rounds : Z) : M string :=
  call BcryptHash ;;;
  ret (bcrypt_hash password rounds (salt env)).

(** [bcrypt.compare(password, passwordHash)]. *)
Definition compare (password passwordHash : string) : M bool :=
  call BcryptCompare ;;;
  ret (bcrypt_compare password passwordHash).

End Operations.

(** ** [controllers/authController.js] *)

(** [req.body]: the fields the handlers destructure from it. *)
Module Body.
Record t := mk {
  username : option string;
  name : option string;
  email : option string;
  password : option string;
  phone : option string;
  role : option string;
  otp : option string;
  newPassword : option string
}.
End Body.

(** ** Doubles *)

Module Double.

(** A double holds 53 significant bits.  A natural number [m] stands for the
    real [m * 2^e] at a scale [e] fixed by the context; [nearest m] stands,
    at the same scale, for the double nearest to it, a tie going to the even
    mantissa.  The uses below stay far from overflow and underflow. *)
Definition shift (m : Z) : Z := Z.max 0 (Z.log2 m + 1 - 53).

Definition nearest (m : Z) : Z :=
  let s := shift m in
  let q := m `div` 2 ^ s in
  let r := m `mod` 2 ^ s in
  let up := Z.ltb (2 ^ s) (2 * r) || (Z.eqb (2 ^ s) (2 * r) && Z.odd q) in
  (if up then q + 1 else q) * 2 ^ s.

End Double.

Module AuthController.
Section Handlers.

Context (env : Env) `{Bcrypt}.

Definition minutes15 : Z := 15 * 60 * 1000.
Definition msPerDay : Z := 86400000.

(** [genOTP()]: [Math.floor(100000 + Math.random() * 900000).toString()],
    with the draw [Math.random()] given as [random env / 2^53].  The product
    and the sum are doubles: at the scale [2^-53], the product is the nearest
    double of [random env * 900000] and the sum the nearest double of
    [100000 * 2^53] plus the product. *)
Definition genOTP : string :=
  pretty.pretty
    (Double.nearest
       (100000 * 2 ^ 53 + Double.nearest (random env * 900000))
     `div` 2 ^ 53).

(** [new Date().toISOString().split('T')[0]], as a day number. *)
Definition isoDay (now : Z) : Z := now `div` msPerDay.

Definition register (body : Body.t) : M Response :=
  try_catch
    (let username := Body.username body in
     let name := Body.name body in
     let email := Body.email body in
     let password := Body.password body in
     let phone := Body.phone body in
     let role := default "staff" (Body.role body) in
     if negb (Js.truthy username) || negb (Js.truthy email)
        || negb (Js.truthy password)
     then ret (reply 400 "Missing required fields")
     else
       existing <-- User_findOne env (Js.str email) ;;
       if bool_decide (is_Some existing)
       then ret (reply 409 "Email already registered")
       else
         passwordHash <-- hash env (Js.str password) 10 ;;
         let otp := genOTP in
         let expires := clock env 0%nat + minutes15 in
         PendingUser_upsert env (Js.str email)
           (PendingUser.mk (Js.str username) name passwordHash phone role
                           otp expires) ;;;
         sendMail env
           (mkMail (Js.str email) (SMTP_USER env) "Your Registration OTP"
              ("Your MANIFEST Registration OTP is " ++ otp
               ++ ". It expires in 15 minutes.")) ;;;
         ret (reply 200 "OTP sent to your email"))
    (λ err,
       console_log "Register Error:" ;;;
       ret (reply 500 "Server error during registration")).

(** The metric step of [verifyRegistration], with its own handler. *)
Definition updateMetrics : M unit :=
  try_catch
    (let today := isoDay (clock env 1%nat) in
     r <-- Metric_findOrCreate env today (Metric.mk 1 0 0) ;;
     let '((day, metric), created) := r in
     if negb created
     then Metric_save env
            (day, Metric.mk (Metric.totalUsers metric + 1)
                            (Metric.totalSales metric)
                            (Metric.totalConversions metric))
     else ret tt)
    (λ metricErr, console_log "Metric update failed (non-blocking):").

Definition verifyRegistration (body : Body.t) : M Response :=
  try_catch
    (let email := Body.email body in
     let otp := Body.otp body in
     found <-- PendingUser_findByPk env email ;;
     match found with
     | None => ret (reply 400 "No registration found for this email")
     | Some pending =>
       if negb (bool_decide (Some (PendingUser.otp pending.2) = otp))
       then ret (reply 400 "Invalid OTP")
       else if Z.ltb (PendingUser.expires pending.2) (clock env 0%nat)
       then ret (reply 400 "OTP expired. Please request a new one.")
       else
         existing <-- User_findOne env (Js.str email) ;;
         if bool_decide (is_Some existing)
         then PendingUser_destroy env pending ;;;
              ret (reply 400 "User already registered.")
         else
           user <-- User_create env (λ id,
             User.mk id
               (PendingUser.username pending.2)
               (PendingUser.name pending.2)
               pending.1
               (PendingUser.passwordHash pending.2)
               (PendingUser.phone pending.2)
               (PendingUser.role pending.2)
               (Some (PendingUser.otp pending.2))
               (Some (PendingUser.expires pending.2))) ;;
           updateMetrics ;;;
           PendingUser_destroy env pending ;;;
           ret (mkResponse 201 (Some "Registration successful") None None
                           (Some (User.id user)) None)
     end)
    (λ err,
       console_log "Verify Registration Error:" ;;;
       ret (reply 500 "Server error verifying OTP")).

Definition login (body : Body.t) : M Response :=
  try_catch
    (let email := Body.email body in
     let password := Body.password body in
     if negb (Js.truthy email) || negb (Js.truthy password)
     then ret (reply 400 "Missing credentials")
     else
       found <-- User_findOne env (Js.str email) ;;
       match found with
       | None => ret (reply 401 "User not found")
       | Some user =>
         valid <-- compare env (Js.str password) (User.passwordHash user) ;;
         if negb valid
         then ret (reply 401 "Invalid password")
         else
           let payload :=
             Payload.mk (User.id user) (User.username user)
                        (User.role user) (User.email user) in
           token <-- jwt_sign env payload (JWT_SECRET env)
                       (Js.or_else (JWT_EXPIRES_IN env) "7d") ;;
           ret (mkResponse 200 None (Some token) (Some payload) None None)
       end)
    (λ err,
       console_log "Login Error:" ;;;
       ret (reply 500 "Server error during login")).

Definition resendOtp (body : Body.t) : M Response :=
  try_catch
    (let email := Body.email body in
     if negb (Js.truthy email)
     then ret (reply 400 "Email is required")
     else
       found <-- PendingUser_findByPk env email ;;
       match found with
       | None => ret (reply 400 "No pending registration found for this email")
       | Some pending =>
         let newOtp := genOTP in
         let row := pending.2 in
         PendingUser_save env
           (pending.1,
            PendingUser.mk (PendingUser.username row) (PendingUser.name row)
              (PendingUser.passwordHash row) (PendingUser.phone row)
              (PendingUser.role row) newOtp (clock env 0%nat + minutes15)) ;;;
         sendMail env
           (mkMail (Js.str email) (SMTP_USER env) "Your New OTP"
              ("Your new OTP is " ++ newOtp ++ ". It expires in 15 minutes.")) ;;;
         ret (reply 200 "OTP resent successfully")
       end)
    (λ err,
       console_log "Resend OTP Error:" ;;;
       ret (reply 500 "Server error resending OTP")).

(** [new Date() > user.otpExpires]; a null expiry compares as 0. *)
Definition expired (now : Z) (otpExpires : option Z) : bool :=
  Z.ltb (default 0 otpExpires) now.

Definition verifyOtpReset (body : Body.t) : M Response :=
  try_catch
    (let email := Body.email body in
     let otp := Body.otp body in
     let newPassword := Body.newPassword body in
     if negb (Js.truthy email) || negb (Js.truthy otp)
        || negb (Js.truthy newPassword)
     then ret (reply 400 "Email, OTP and new password required")
     else
       found <-- User_findOne env (Js.str email) ;;
       match found with
       | None => ret (reply 404 "User not found")
       | Some user =>
         if negb (Js.truthy (User.otp user))
            || negb (bool_decide (User.otp user = otp))
            || expired (clock env 0%nat) (User.otpExpires user)
         then ret (reply 400 "Invalid or expired OTP")
         else
           passwordHash <-- hash env (Js.str newPassword) 10 ;;
           User_save env
             (User.mk (User.id user) (User.username user) (User.name user)
                      (User.email user) passwordHash (User.phone user)
                      (User.role user) None None) ;;;
           ret (reply 200 "Password updated successfully")
       end)
    (λ err,
       console_log "Verify OTP Reset Error:" ;;;
       ret (reply 500 "Server error verifying OTP reset")).

End Handlers.
End AuthController.

(** ** [middleware/auth.js]: the role gates *)

Module AuthMiddleware.

(** What a middleware does with a request: hand it on, or answer it. *)
Inductive Result :=
| Next
| Respond (r : Response).

(** [!req.user || !allowed(req.user.role)], with [req.user] the attached
    user, if any. *)
Definition denied (user : option User.t) (allowed : string → bool) : bool :=
  match user with
  | None => true
  | Some u => negb (allowed (User.role u))
  end.

(** [roles.includes(role)]. *)
Definition includes (roles : list string) (role : string) : bool :=
  bool_decide (role ∈ roles).

Definition requireRole (roles : list string) (user : option User.t) : Result :=
  if denied user (includes roles)
  then Respond (reply 403 "Access denied")
  else Next.

Definition isAdmin (user : option User.t) : Result :=
  if denied user (λ role, String.eqb role "admin")
  then Respond (reply 403 "Admin access only")
  else Next.

Definition isStaff (user : option User.t) : Result :=
  if denied user (λ role, String.eqb role "staff")
  then Respond (reply 403 "Staff access only")
  else Next.

End AuthMiddleware.

(** ** The metrics controller: [getTimeSeries] *)

(** The time zone of the process: the offset of local time from UTC, in
    milliseconds, at a UTC instant ([tza_utc]) and at a local time
    ([tza_local]).  Nothing is assumed of either. *)
Class TimeZone := {
  tza_utc : Z → Z;
  tza_local : Z → Z
}.

Module MetricsController.

(** What [parseInt] returns: [NaN], a double that is an integer, or an
    infinity. *)
Inductive Number :=
| NaN
| Finite (n : Z)
| Infinite (negative : bool).

(** The double of an integer: the nearest one, infinite from [2^1024] on. *)
Definition ofInteger (n : Z) : Number :=
  let v := Double.nearest (Z.abs n) in
  if Z.leb (2 ^ 1024) v then Infinite (Z.ltb n 0)
  else Finite (Z.sgn n * v).

(** *** [parseInt] on an ASCII string, radix left out *)

Definition is_space (c : ascii) : bool :=
  let n := Z.of_nat (nat_of_ascii c) in
  Z.eqb n 32 || (Z.leb 9 n && Z.leb n 13).

Fixpoint trim_start (s : string) : string :=
  match s with
  | String c s' => if is_space c then trim_start s' else s
  | EmptyString => EmptyString
  end.

Definition digit_of (radix : Z) (c : ascii) : option Z :=
  let n := Z.of_nat (nat_of_ascii c) in
  let d :=
    if Z.leb 48 n && Z.leb n 57 then Some (n - 48)
    else if Z.leb 97 n && Z.leb n 122 then Some (n - 87)
    else if Z.leb 65 n && Z.leb n 90 then Some (n - 55)
    else None in
  match d with
  | Some d => if Z.ltb d radix then Some d else None
  | None => None
  end.

(** The longest prefix of digits, read in [radix]; [None] when it is empty. *)
Fixpoint digits (radix : Z) (acc : option Z) (s : string) : option Z :=
  match s with
  | String c s' =>
      match digit_of radix c with
      | Some d => digits radix (Some (default 0 acc * radix + d)) s'
      | None => acc
      end
  | EmptyString => acc
  end.

(** [parseInt(s)]: the double of the integer that the digits write. *)
Definition parseInt (s : string) : Number :=
  let s := trim_start s in
  let '(sign, s) :=
    match s with
    | String "-"%char s' => (-1, s')
    | String "+"%char s' => (1, s')
    | _ => (1, s)
    end in
  let '(radix, s) :=
    match s with
    | String "0"%char (String "x"%char s') => (16, s')
    | String "0"%char (String "X"%char s') => (16, s')
    | _ => (10, s)
    end in
  match digits radix None s with
  | Some n => ofInteger (sign * n)
  | None => NaN
  end.

(** [s.replace('d', '')]: the first ['d'] goes. *)
Fixpoint replace_d (s : string) : string :=
  match s with
  | String c s' => if Ascii.eqb c "d"%char then s' else String c (replace_d s')
  | EmptyString => EmptyString
  end.

(** [parseInt(String(period).replace('d','')) || 30]: [NaN] and zero give
    30. *)
Definition daysOf (period : string) : Number :=
  match parseInt (replace_d period) with
  | NaN => Finite 30
  | Finite n => if Z.eqb n 0 then Finite 30 else Finite n
  | Infinite negative => Infinite negative
  end.

(** *** The query

    What Sequelize and the database do with the options of [findAll] is
    written out on the table: the rows are filtered, grouped by date with
    the sum of each column, and ordered by date. *)

Definition row_date (r : Z * Metric.t) : Z := r.1.

(** [ORDER BY date ASC]. *)
Definition by_date (a b : Z * Metric.t) : Prop := row_date a ≤ row_date b.

#[export] Instance by_date_dec a b : Decision (by_date a b).
Proof. unfold by_date. apply _. Defined.

(** Modelled from the spec: [WHERE date >= since] over the [date] column of
    the missing [Metric] model, a day, so the instant [since] is compared by
    its day. *)
Definition since_le (since : Z) (r : Z * Metric.t) : Prop :=
  AuthController.isoDay since ≤ row_date r.

#[export] Instance since_le_dec since r : Decision (since_le since r).
Proof. unfold since_le. apply _. Defined.

Definition sum_rows (a b : Metric.t) : Metric.t :=
  Metric.mk (Metric.totalUsers a + Metric.totalUsers b)
            (Metric.totalSales a + Metric.totalSales b)
            (Metric.totalConversions a + Metric.totalConversions b).

(** [GROUP BY date] with [SUM] of each column. *)
Definition add_row (r : Z * Metric.t) (acc : gmap Z Metric.t) : gmap Z Metric.t :=
  <[row_date r := match acc !! row_date r with
                  | Some m => sum_rows r.2 m
                  | None => r.2
                  end]> acc.

Definition group_by_date (rows : list (Z * Metric.t)) : gmap Z Metric.t :=
  foldr add_row ∅ rows.

Definition select_since (since : Z) (table : gmap Z Metric.t)
  : list (Z * Metric.t) :=
  merge_sort by_date
    (map_to_list (group_by_date (filter (since_le since) (map_to_list table)))).

(** The rows the query answers with; [since] is [None] for an Invalid Date,
    which no date is at or after. *)
Definition select (since : option Z) (table : gmap Z Metric.t)
  : list (Z * Metric.t) :=
  match since with
  | Some t => select_since t table
  | None => []
  end.

Section Handlers.

Context (env : Env) `{TimeZone}.

(** [Metric.findAll({ attributes, where, group, order, raw })] of
    [getTimeSeries]. *)
Definition Metric_findAll (since : option Z) : M (list (Z * Metric.t)) :=
  call env MetricFindAll ;;;
  w <-- get ;;
  ret (select since (metrics w)).

(** One round of the [forEach]: a point is pushed on each list. *)
Definition push_row (series : Series.t) (r : Z * Metric.t) : Series.t :=
  Series.mk
    (Series.users series ++ [mkPoint (row_date r) (Metric.totalUsers r.2)])
    (Series.sales series ++ [mkPoint (row_date r) (Metric.totalSales r.2)])
    (Series.conversions series
       ++ [mkPoint (row_date r) (Metric.totalConversions r.2)]).

(** The largest time value of a [Date]. *)
Definition maxTime : Z := 8640000000000000.

(** [since = new Date(); since.setDate(since.getDate() - days)]: the local
    date moves back by [days] whole days, the local time of day stays, and
    the result is read back as a UTC instant.  It is an Invalid Date, here
    [None], when [days] is not finite or the instant is beyond [maxTime]. *)
Definition sinceOf (now : Z) (days : Number) : option Z :=
  match days with
  | Finite n =>
      let local := now + tza_utc now in
      let moved := local - n * AuthController.msPerDay in
      let t := moved - tza_local moved in
      if Z.leb (Z.abs t) maxTime then Some t else None
  | _ => None
  end.

(** [period] is [req.query.period]. *)
Definition getTimeSeries (period : option string) : M Response :=
  try_catch
    (let period := Js.or_else period "30d" in
     let days := daysOf period in
     let since := sinceOf (clock env 0%nat) days in
     results <-- Metric_findAll since ;;
     let series := fold_left push_row results (Series.mk [] [] []) in
     ret (mkResponse 200 None None None None (Some series)))
    (λ err,
       console_log "getTimeSeries error" ;;;
       ret (reply 500 "Server error")).

End Handlers.

End MetricsController.

(** ** Sample inputs *)

Module Sample.

(** The part of a digest after its first ['$']. *)
Fixpoint after_dollar (h : string) : string :=
  match h with
  | String c h' => if Ascii.eqb c "$"%char then h' else after_dollar h'
  | EmptyString => EmptyString
  end.

(** An instance of [Bcrypt] to run the handlers with: a digest is the salt,
    a ['$'] and the password in clear. *)
Definition cleartext : Bcrypt :=
  {| bcrypt_hash password _ salt := salt ++ "$" ++ password;
     bcrypt_compare password digest := String.eqb password (after_dollar digest) |}.

Definition no_failure : Op → bool := λ _, false.

Definition metric_failure : Op → bool :=
  λ op, match op with MetricFindOrCreate => true | _ => false end.

(** A request handled at instant 1000. *)
Definition quiet : Env :=
  mkEnv (λ _, 1000) (2 ^ 52) "salt" no_failure "secret" None
        (Some "noreply@x.com").

(** The same, with the metrics table out of reach. *)
Definition metrics_down : Env :=
  mkEnv (λ _, 1000) (2 ^ 52) "salt" metric_failure "secret" None
        (Some "noreply@x.com").

(** A request handled after the sample OTP has expired. *)
Definition late : Env :=
  mkEnv (λ _, 901001) (2 ^ 52) "salt" no_failure "secret" None
        (Some "noreply@x.com").

Definition nowhere : World := mkWorld [] 1 ∅ ∅ [] [].

(** What [register] stores for [a@x.com] at instant 1000. *)
Definition row_a : PendingUser.t :=
  PendingUser.mk "a" None "salt$p" None "staff" "550000" 901000.

Definition awaiting : World :=
  mkWorld [] 1 {[ "a@x.com" := row_a ]} ∅ [] [].

Definition alice : User.t :=
  User.mk 1 "a" None "a@x.com" "salt$p" None "staff" (Some "550000")
          (Some 901000).

Definition registered : World := mkWorld [alice] 2 ∅ ∅ [] [].

(** A user whose stored digest is that of the empty password. *)
Definition blank : User.t :=
  User.mk 7 "b" None "b@x.com" "salt$" None "staff" None None.

Definition seeded : World := mkWorld [blank] 8 ∅ ∅ [] [].

Definition register_a : Body.t :=
  Body.mk (Some "a") None (Some "a@x.com") (Some "p") None None None None.

Definition register_a_no_password : Body.t :=
  Body.mk (Some "a") None (Some "a@x.com") None None None None None.

Definition verify_a : Body.t :=
  Body.mk None None (Some "a@x.com") None None None (Some "550000") None.

Definition login_a : Body.t :=
  Body.mk None None (Some "a@x.com") (Some "p") None None None None.

Definition login_a_wrong : Body.t :=
  Body.mk None None (Some "a@x.com") (Some "q") None None None None.

Definition login_ghost_no_password : Body.t :=
  Body.mk None None (Some "ghost@x.com") None None None None None.

Definition login_blank : Body.t :=
  Body.mk None None (Some "b@x.com") (Some "") None None None None.

Definition reset_a : Body.t :=
  Body.mk None None (Some "a@x.com") None None None (Some "550000")
          (Some "n3w").

Definition reset_a_empty : Body.t :=
  Body.mk None None (Some "a@x.com") None None None (Some "550000")
          (Some "").

Definition admin_bob : User.t :=
  User.mk 2 "bob" None "bob@x.com" "salt$b" None "admin" None None.

Definition three_days : gmap Z Metric.t :=
  <[ 5 := Metric.mk 1 2 3 ]>
    (<[ 3 := Metric.mk 4 5 6 ]> (<[ 10 := Metric.mk 7 8 9 ]> ∅)).

(** A request handled at the start of day 35. *)
Definition day35 : Env :=
  mkEnv (λ _, 35 * 86400000) 0 "" no_failure "" None None.

Definition measured : World := mkWorld [] 1 ∅ three_days [] [].

End Sample.

(** ** [middleware/auth.js]: the bearer token *)

(** [jsonwebtoken]'s [verify] on the text of a token, a secret and the
    instant of the check: the payload the token was signed from, or [None]
    when the library raises (bad signature, expired, malformed).  Nothing is
    assumed of it. *)
Class JwtVerify := {
  jwt_verify : string → string → Z → option Payload.t
}.

Module Authentication.

(** [s.split(sep)] for a separator of one character. *)
Fixpoint split (sep : ascii) (s : string) : list string :=
  match s with
  | EmptyString => [EmptyString]
  | String c s' =>
      if Ascii.eqb c sep then EmptyString :: split sep s'
      else match split sep s' with
           | piece :: pieces => String c piece :: pieces
           | [] => [String c EmptyString]
           end
  end.

(** [s.startsWith(p)]. *)
Definition startsWith (s p : string) : bool := String.prefix p s.

(** [header.split(' ')[1]]. *)
Definition tokenOf (header : string) : option string :=
  split " "%char header !! 1%nat.

Section Handlers.

Context (env : Env) `{JwtVerify}.

(** [jwt.verify(token, process.env.JWT_SECRET)]. *)
Definition verify (token : option string) : M Payload.t :=
  λ w, match token with
       | Some t =>
           match jwt_verify t (JWT_SECRET env) (clock env 0%nat) with
           | Some payload => (Ok payload, w)
           | None => (Throw JwtSign, w)
           end
       | None => (Throw JwtSign, w)
       end.

(** [authMiddleware], on the [authorization] header of the request.  The
    answer is the user attached to the request, if any, and what the
    middleware did.  The source file holds the function twice, the second
    copy inside the [catch] of the first; the two treat a request alike. *)
Definition authMiddleware (authorization : option string)
  : M (option User.t * AuthMiddleware.Result) :=
  let header := authorization in
  if negb (Js.truthy header) || negb (startsWith (Js.str header) "Bearer ")
  then ret (None, AuthMiddleware.Respond
                    (reply 401 "Missing or invalid auth header"))
  else
    let token := tokenOf (Js.str header) in
    try_catch
      (payload <-- verify token ;;
       found <-- User_findByPk env (Payload.id payload) ;;
       match found with
       | None =>
           ret (None, AuthMiddleware.Respond (reply 401 "Invalid token user"))
       | Some user => ret (Some user, AuthMiddleware.Next)
       end)
      (λ err,
         console_log "Auth Error:" ;;;
         ret (None, AuthMiddleware.Respond
                      (reply 401 "Invalid or expired token"))).

End Handlers.

End Authentication.

(** ** Properties of worlds and strings used in the statements *)

(** Ids and emails of the users are pairwise distinct, and the ids already
    given out are below the next one. *)
Definition consistent (w : World) : Prop :=
  NoDup (User.id <$> users w)
  ∧ NoDup (User.email <$> users w)
  ∧ ∀ u, u ∈ users w → User.id u < nextUserId w.

(** A character among ['0'] to ['9']. *)
Definition is_decimal (c : ascii) : bool :=
  let n := Z.of_nat (nat_of_ascii c) in Z.leb 48 n && Z.leb n 57.

(** A string of decimal digits. *)
Fixpoint all_decimal (s : string) : bool :=
  match s with
  | String c s' => is_decimal c && all_decimal s'
  | EmptyString => true
  end.

(** The range of [Math.random() * 2^53]. *)
Definition drawn (env : Env) : Prop := 0 ≤ random env < 2 ^ 53.

(** ** More sample inputs *)

Module Cases.

(** A process that runs in UTC. *)
Definition utc : TimeZone := {| tza_utc _ := 0; tza_local _ := 0 |}.

(** A verifier for the sample: the token text is the id of a user. *)
Definition by_id : JwtVerify :=
  {| jwt_verify token _ _ :=
       if String.eqb token "1" then Some (Payload.mk 1 "a" "staff" "a@x.com")
       else None |}.

(** Every call completes but [pending.destroy()]. *)
Definition destroy_failure : Op → bool :=
  λ op, match op with PendingDestroy => true | _ => false end.

Definition destroy_down : Env :=
  mkEnv (λ _, 1000) (2 ^ 52) "salt" destroy_failure "secret" None
        (Some "noreply@x.com").

(** Every call completes but [sendMail]. *)
Definition mail_failure : Op → bool :=
  λ op, match op with SendMail => true | _ => false end.

Definition smtp_down : Env :=
  mkEnv (λ _, 1000) (2 ^ 52) "salt" mail_failure "secret" None
        (Some "noreply@x.com").

(** A later request, with another draw. *)
Definition again : Env :=
  mkEnv (λ _, 2000000) (2 ^ 51) "pepper" Sample.no_failure "secret" None
        (Some "noreply@x.com").

Definition verify_a_wrong : Body.t :=
  Body.mk None None (Some "a@x.com") None None None (Some "000000") None.

Definition resend_a : Body.t :=
  Body.mk None None (Some "a@x.com") None None None None None.

Definition login_a_new : Body.t :=
  Body.mk None None (Some "a@x.com") (Some "n3w") None None None None.

(** [a@x.com] is both registered and pending. *)
Definition both : World :=
  mkWorld [Sample.alice] 2 {[ "a@x.com" := Sample.row_a ]} ∅ [] [].



End Cases.

(** * Running computations *)

Section Running.

Context {A B : Type}.

Lemma bind_ok (m : M A) (k : A → M B) w a w' :
  m w = (Ok a, w') → bind m k w = k a w'.
Proof. intros Hm. unfold bind. by rewrite Hm. Qed.

Lemma bind_throw (m : M A) (k : A → M B) w op w' :
  m w = (Throw op, w') → bind m k w = (Throw op, w').
Proof. intros Hm. unfold bind. by rewrite Hm. Qed.

Lemma try_catch_ok (m : M A) (h : Op → M A) w a w' :
  m w = (Ok a, w') → try_catch m h w = (Ok a, w').
Proof. intros Hm. unfold try_catch. by rewrite Hm. Qed.

Lemma try_catch_throw (m : M A) (h : Op → M A) w op w' :
  m w = (Throw op, w') → try_catch m h w = h op w'.
Proof. intros Hm. unfold try_catch. by rewrite Hm. Qed.

End Running.

Section OperationFacts.

Context (env : Env).

Lemma call_ok op w : throws env op = false → call env op w = (Ok tt, w).
Proof. intros Hop. unfold call. by rewrite Hop. Qed.

Lemma call_throw op w : throws env op = true → call env op w = (Throw op, w).
Proof. intros Hop. unfold call. by rewrite Hop. Qed.

Lemma User_findOne_ok email w :
  throws env UserFindOne = false →
  User_findOne env email w = (Ok (user_by_email w email), w).
Proof.
  intros Hop. unfold User_findOne.
  by rewrite (bind_ok _ _ _ _ _ (call_ok _ _ Hop)).
Qed.

Lemma User_findOne_throw email w :
  throws env UserFindOne = true →
  User_findOne env email w = (Throw UserFindOne, w).
Proof.
  intros Hop. unfold User_findOne.
  by rewrite (bind_throw _ _ _ _ _ (call_throw _ _ Hop)).
Qed.

Lemma User_create_ok row w :
  throws env UserCreate = false →
  user_by_email w (User.email (row (nextUserId w))) = None →
  User_create env row w =
    (Ok (row (nextUserId w)),
     mkWorld (users w ++ [row (nextUserId w)]) (nextUserId w + 1)
             (pendings w) (metrics w) (outbox w) (console w)).
Proof.
  intros Hop Hfree. unfold User_create.
  rewrite (bind_ok _ _ _ _ _ (call_ok _ _ Hop)).
  unfold bind, get; simpl. by rewrite Hfree.
Qed.

Lemma User_save_ok u w :
  throws env UserSave = false →
  User_save env u w =
    (Ok tt,
     mkWorld (List.map (λ x, if Z.eqb (User.id x) (User.id u) then u else x)
                       (users w))
             (nextUserId w) (pendings w) (metrics w) (outbox w) (console w)).
Proof.
  intros Hop. unfold User_save.
  by rewrite (bind_ok _ _ _ _ _ (call_ok _ _ Hop)).
Qed.

Lemma PendingUser_findByPk_ok e w :
  throws env PendingFindByPk = false →
  PendingUser_findByPk env (Some e) w =
    (Ok (match pendings w !! e with
         | Some row => Some (e, row)
         | None => None
         end), w).
Proof.
  intros Hop. unfold PendingUser_findByPk.
  by rewrite (bind_ok _ _ _ _ _ (call_ok _ _ Hop)).
Qed.

Lemma PendingUser_findByPk_throw email w :
  throws env PendingFindByPk = true →
  PendingUser_findByPk env email w = (Throw PendingFindByPk, w).
Proof.
  intros Hop. unfold PendingUser_findByPk.
  by rewrite (bind_throw _ _ _ _ _ (call_throw _ _ Hop)).
Qed.

Lemma PendingUser_destroy_ok pending w :
  throws env PendingDestroy = false →
  PendingUser_destroy env pending w =
    (Ok tt,
     mkWorld (users w) (nextUserId w) (delete pending.1 (pendings w))
             (metrics w) (outbox w) (console w)).
Proof.
  intros Hop. unfold PendingUser_destroy.
  by rewrite (bind_ok _ _ _ _ _ (call_ok _ _ Hop)).
Qed.

(** A lookup by email finds nothing exactly when no row has the email. *)
Lemma user_by_email_None w e :
  user_by_email w e = None ↔ ∀ u, u ∈ users w → User.email u ≠ e.
Proof.
  unfold user_by_email. induction (users w) as [|x l IH]; simpl.
  - split; [intros _ u Hu; inversion Hu | done].
  - destruct (String.eqb_spec (User.email x) e) as [Heq|Hne].
    + split; [done | intros Hall]. exfalso.
      apply (Hall x); [left | done].
    + rewrite IH. split.
      * intros Hall u Hu. inversion Hu; subst; [done | by apply Hall].
      * intros Hall u Hu. apply Hall. by right.
Qed.

Lemma user_by_email_Some w e u :
  user_by_email w e = Some u → u ∈ users w ∧ User.email u = e.
Proof.
  unfold user_by_email. intros Hfind.
  apply List.find_some in Hfind as [Hin Heq].
  split; [by apply list_elem_of_In | by apply String.eqb_eq].
Qed.

End OperationFacts.

(** * Registration verification *)

Section Verification.

Context (env : Env).

(** The metric step never raises, and touches only the metrics table and
    the console. *)
Lemma updateMetrics_nonblocking w :
  ∃ w', AuthController.updateMetrics env w = (Ok tt, w')
        ∧ users w' = users w ∧ nextUserId w' = nextUserId w
        ∧ pendings w' = pendings w ∧ outbox w' = outbox w.
Proof.
  unfold AuthController.updateMetrics, try_catch, Metric_findOrCreate,
    Metric_save, bind, call, get, put, ret, console_log.
  destruct (throws env MetricFindOrCreate); simpl; [by eexists|].
  destruct (metrics w !! _); simpl; [|by eexists].
  destruct (throws env MetricSave); simpl; by eexists.
Qed.

(** When the find-or-create or the save raises, the handler logs and the
    metrics stay as they were. *)
Lemma updateMetrics_caught w :
  throws env MetricFindOrCreate = true
  ∨ (throws env MetricSave = true
     ∧ is_Some (metrics w !! AuthController.isoDay (clock env 1%nat))) →
  AuthController.updateMetrics env w =
    (Ok tt, mkWorld (users w) (nextUserId w) (pendings w) (metrics w) (outbox w)
              (console w ++ ["Metric update failed (non-blocking):"])).
Proof.
  unfold AuthController.updateMetrics, try_catch, Metric_findOrCreate,
    Metric_save, bind, call, get, put, ret, console_log.
  intros [Hfind | [Hsave [row Hrow]]].
  - by rewrite Hfind.
  - destruct (throws env MetricFindOrCreate); simpl; [done|].
    rewrite Hrow; simpl. by rewrite Hsave.
Qed.

(** The run of a verification that passes every check, up to what the
    metric step leaves. *)
Lemma verifyRegistration_run body w e row :
  Body.email body = Some e →
  pendings w !! e = Some row →
  Body.otp body = Some (PendingUser.otp row) →
  clock env 0%nat ≤ PendingUser.expires row →
  user_by_email w e = None →
  throws env PendingFindByPk = false →
  throws env UserFindOne = false →
  throws env UserCreate = false →
  throws env PendingDestroy = false →
  let u := User.mk (nextUserId w) (PendingUser.username row)
             (PendingUser.name row) e (PendingUser.passwordHash row)
             (PendingUser.phone row) (PendingUser.role row)
             (Some (PendingUser.otp row)) (Some (PendingUser.expires row)) in
  ∀ wm,
    AuthController.updateMetrics env
      (mkWorld (users w ++ [u]) (nextUserId w + 1) (pendings w) (metrics w)
               (outbox w) (console w)) = (Ok tt, wm) →
    AuthController.verifyRegistration env body w =
      (Ok (mkResponse 201 (Some "Registration successful") None None
                      (Some (nextUserId w)) None),
       mkWorld (users wm) (nextUserId wm) (delete e (pendings wm))
               (metrics wm) (outbox wm) (console wm)).
Proof.
  intros He Hrow Hotp Hexp Hnone T1 T2 T3 T4 u wm Hm.
  unfold AuthController.verifyRegistration.
  apply try_catch_ok. rewrite He.
  rewrite (bind_ok _ _ _ _ _ (PendingUser_findByPk_ok env e w T1)).
  rewrite Hrow; simpl. rewrite Hotp.
  rewrite bool_decide_eq_true_2 by done. simpl.
  destruct (Z.ltb_spec (PendingUser.expires row) (clock env 0%nat)) as [Hlt|_]; [lia|].
  rewrite (bind_ok _ _ _ _ _ (User_findOne_ok env e w T2)).
  rewrite Hnone. rewrite bool_decide_eq_false_2 by (by intros [? ?]).
  erewrite bind_ok; [|by apply User_create_ok].
  erewrite bind_ok; [|exact Hm].
  erewrite bind_ok; [|by apply PendingUser_destroy_ok].
  done.
Qed.

(** Without a pending row for the email, the answer is 400 and nothing
    changes. *)
Lemma verifyRegistration_absent body w e :
  Body.email body = Some e →
  pendings w !! e = None →
  throws env PendingFindByPk = false →
  AuthController.verifyRegistration env body w =
    (Ok (reply 400 "No registration found for this email"), w).
Proof.
  intros He Hrow T1. unfold AuthController.verifyRegistration.
  apply try_catch_ok. rewrite He.
  rewrite (bind_ok _ _ _ _ _ (PendingUser_findByPk_ok env e w T1)).
  by rewrite Hrow.
Qed.

End Verification.

(** C1.  A verification request whose email has a pending row with the
    submitted OTP and an expiry that is not in the past, while no user has
    that email, creates exactly one user (the users are the former ones
    followed by the new one) whose username, name, email, password hash,
    phone and role are those of the pending row, deletes the pending row and
    answers 201 with the new user's id; verifying again with the same body
    then answers 400.  The store calls on the way are taken to complete;
    whether the metric step raises does not matter. *)
Theorem verifyRegistration_promotes_pending (env env' : Env) body w e row :
  Body.email body = Some e →
  pendings w !! e = Some row →
  Body.otp body = Some (PendingUser.otp row) →
  clock env 0%nat ≤ PendingUser.expires row →
  (∀ u, u ∈ users w → User.email u ≠ e) →
  throws env PendingFindByPk = false →
  throws env UserFindOne = false →
  throws env UserCreate = false →
  throws env PendingDestroy = false →
  throws env' PendingFindByPk = false →
  ∃ u w',
    AuthController.verifyRegistration env body w =
      (Ok (mkResponse 201 (Some "Registration successful") None None
                      (Some (User.id u)) None), w')
    ∧ users w' = (users w ++ [u])%list
    ∧ User.username u = PendingUser.username row
    ∧ User.name u = PendingUser.name row
    ∧ User.email u = e
    ∧ User.passwordHash u = PendingUser.passwordHash row
    ∧ User.phone u = PendingUser.phone row
    ∧ User.role u = PendingUser.role row
    ∧ pendings w' = delete e (pendings w)
    ∧ pendings w' !! e = None
    ∧ ∃ r, AuthController.verifyRegistration env' body w' = (Ok r, w')
           ∧ status r = 400.
Proof.
  intros He Hrow Hotp Hexp Hnone T1 T2 T3 T4 T1'.
  apply user_by_email_None in Hnone.
  set (u := User.mk (nextUserId w) (PendingUser.username row)
              (PendingUser.name row) e (PendingUser.passwordHash row)
              (PendingUser.phone row) (PendingUser.role row)
              (Some (PendingUser.otp row)) (Some (PendingUser.expires row))).
  destruct (updateMetrics_nonblocking env
    (mkWorld (users w ++ [u]) (nextUserId w + 1) (pendings w) (metrics w)
             (outbox w) (console w)))
    as (wm & Hm & Hu & Hn & Hp & Ho).
  simpl in Hu, Hn, Hp, Ho.
  exists u, (mkWorld (users wm) (nextUserId wm) (delete e (pendings wm))
                     (metrics wm) (outbox wm) (console wm)).
  split; [by apply (verifyRegistration_run env body w e row)|].
  simpl. rewrite Hu, Hp. repeat (split; [reflexivity|]).
  split; [apply lookup_delete_eq|].
  exists (reply 400 "No registration found for this email").
  split; [|done].
  apply verifyRegistration_absent with (e := e); [done| |done].
  simpl. apply lookup_delete_eq.
Qed.

Lemma verifyRegistration_promotes_pending_witness :
  ∃ u w',
    AuthController.verifyRegistration Sample.quiet Sample.verify_a Sample.awaiting =
      (Ok (mkResponse 201 (Some "Registration successful") None None
                      (Some (User.id u)) None), w')
    ∧ users w' = (users Sample.awaiting ++ [u])%list
    ∧ User.username u = PendingUser.username Sample.row_a
    ∧ User.name u = PendingUser.name Sample.row_a
    ∧ User.email u = "a@x.com"
    ∧ User.passwordHash u = PendingUser.passwordHash Sample.row_a
    ∧ User.phone u = PendingUser.phone Sample.row_a
    ∧ User.role u = PendingUser.role Sample.row_a
    ∧ pendings w' = delete "a@x.com" (pendings Sample.awaiting)
    ∧ pendings w' !! "a@x.com" = None
    ∧ ∃ r, AuthController.verifyRegistration Sample.late Sample.verify_a w' = (Ok r, w')
           ∧ status r = 400.
Proof.
  apply (verifyRegistration_promotes_pending Sample.quiet Sample.late
           Sample.verify_a Sample.awaiting "a@x.com" Sample.row_a);
    try reflexivity.
  - vm_compute. discriminate.
  - intros u Hu. inversion Hu.
Defined.

(** C7.  When a verification passes the OTP, expiry and duplicate checks and
    the metric step raises (the find-or-create does, or the save of a row
    found does), the handler still deletes the pending row and still answers
    201 with the new user's id; the metrics are left as they were and the
    failure is logged. *)
Theorem verifyRegistration_metric_failure (env : Env) body w e row :
  Body.email body = Some e →
  pendings w !! e = Some row →
  Body.otp body = Some (PendingUser.otp row) →
  clock env 0%nat ≤ PendingUser.expires row →
  (∀ u, u ∈ users w → User.email u ≠ e) →
  throws env PendingFindByPk = false →
  throws env UserFindOne = false →
  throws env UserCreate = false →
  throws env PendingDestroy = false →
  throws env MetricFindOrCreate = true
  ∨ (throws env MetricSave = true
     ∧ is_Some (metrics w !! AuthController.isoDay (clock env 1%nat))) →
  ∃ u w',
    AuthController.verifyRegistration env body w =
      (Ok (mkResponse 201 (Some "Registration successful") None None
                      (Some (User.id u)) None), w')
    ∧ users w' = (users w ++ [u])%list
    ∧ pendings w' = delete e (pendings w)
    ∧ pendings w' !! e = None
    ∧ metrics w' = metrics w
    ∧ console w' = (console w ++ ["Metric update failed (non-blocking):"])%list.
Proof.
  intros He Hrow Hotp Hexp Hnone T1 T2 T3 T4 Hfail.
  apply user_by_email_None in Hnone.
  set (u := User.mk (nextUserId w) (PendingUser.username row)
              (PendingUser.name row) e (PendingUser.passwordHash row)
              (PendingUser.phone row) (PendingUser.role row)
              (Some (PendingUser.otp row)) (Some (PendingUser.expires row))).
  exists u. eexists. split.
  - apply (verifyRegistration_run env body w e row); try done.
    by apply updateMetrics_caught.
  - simpl. repeat (split; [reflexivity|]).
    split; [apply lookup_delete_eq | done].
Qed.

Lemma verifyRegistration_metric_failure_witness :
  ∃ u w',
    AuthController.verifyRegistration Sample.metrics_down Sample.verify_a
      Sample.awaiting =
      (Ok (mkResponse 201 (Some "Registration successful") None None
                      (Some (User.id u)) None), w')
    ∧ users w' = (users Sample.awaiting ++ [u])%list
    ∧ pendings w' = delete "a@x.com" (pendings Sample.awaiting)
    ∧ pendings w' !! "a@x.com" = None
    ∧ metrics w' = metrics Sample.awaiting
    ∧ console w'
      = (console Sample.awaiting ++ ["Metric update failed (non-blocking):"])%list.
Proof.
  apply (verifyRegistration_metric_failure Sample.metrics_down
           Sample.verify_a Sample.awaiting "a@x.com" Sample.row_a);
    try reflexivity.
  - vm_compute. discriminate.
  - intros u Hu. inversion Hu.
  - left. reflexivity.
Defined.

(** C3.  When the pending row of the request's email has an expiry in the
    past, verification fails whether or not the submitted OTP is the stored
    one: the answer is 400 (or 500 when the lookup raises), the users are as
    before and the pending row stays. *)
Theorem verifyRegistration_expired (env : Env) body w e row :
  Body.email body = Some e →
  pendings w !! e = Some row →
  PendingUser.expires row < clock env 0%nat →
  ∃ r w',
    AuthController.verifyRegistration env body w = (Ok r, w')
    ∧ (status r = 400 ∨ status r = 500)
    ∧ userId r = None
    ∧ users w' = users w
    ∧ pendings w' = pendings w.
Proof.
  intros He Hrow Hexp. unfold AuthController.verifyRegistration.
  destruct (throws env PendingFindByPk) eqn:T1.
  - erewrite try_catch_throw;
      [|by erewrite bind_throw; [|by apply PendingUser_findByPk_throw]].
    eexists _, _. split; [reflexivity|]. simpl. auto.
  - rewrite He.
    destruct (bool_decide (Some (PendingUser.otp row) = Body.otp body)) eqn:Hotp.
    + eexists _, _. split.
      * apply try_catch_ok.
        rewrite (bind_ok _ _ _ _ _ (PendingUser_findByPk_ok env e w T1)).
        rewrite Hrow; simpl. rewrite Hotp; simpl.
        destruct (Z.ltb_spec (PendingUser.expires row) (clock env 0%nat));
          [reflexivity | lia].
      * simpl. auto.
    + eexists _, _. split.
      * apply try_catch_ok.
        rewrite (bind_ok _ _ _ _ _ (PendingUser_findByPk_ok env e w T1)).
        rewrite Hrow; simpl. rewrite Hotp; simpl. reflexivity.
      * simpl. auto.
Qed.

Lemma verifyRegistration_expired_witness :
  ∃ r w',
    AuthController.verifyRegistration Sample.late Sample.verify_a Sample.awaiting
      = (Ok r, w')
    ∧ (status r = 400 ∨ status r = 500)
    ∧ userId r = None
    ∧ users w' = users Sample.awaiting
    ∧ pendings w' = pendings Sample.awaiting.
Proof.
  apply (verifyRegistration_expired Sample.late Sample.verify_a
           Sample.awaiting "a@x.com" Sample.row_a); reflexivity.
Defined.

(** * Registration and login *)

Lemma truthy_Some (v : option string) :
  Js.truthy v = true → ∃ s, v = Some s ∧ s ≠ "".
Proof.
  destruct v as [s|]; simpl; [|done].
  intros Hs. exists s. split; [done|].
  intros ->. done.
Qed.

Lemma truthy_nonempty (s : string) : s ≠ "" → Js.truthy (Some s) = true.
Proof. intros Hs. simpl. by destruct (String.eqb_spec s ""). Qed.

Lemma user_by_email_elem w (u : User.t) :
  u ∈ users w → is_Some (user_by_email w (User.email u)).
Proof.
  intros Hu. destruct (user_by_email w (User.email u)) eqn:Hfind; [by eexists|].
  exfalso. by apply (proj1 (user_by_email_None w _) Hfind u).
Qed.

(** C4, as the code has it.  When the email of a registration request belongs
    to an existing user, [register] writes no pending row and sends no mail,
    whatever else the request holds; it answers 409 when username, email and
    password are all present and the lookup of the user completes, and 400
    when one of the three is missing. *)
Theorem register_known_email (env : Env) `{Bcrypt} body w u :
  u ∈ users w →
  Body.email body = Some (User.email u) →
  ∃ r w',
    AuthController.register env body w = (Ok r, w')
    ∧ pendings w' = pendings w
    ∧ outbox w' = outbox w
    ∧ users w' = users w
    ∧ (Js.truthy (Body.username body) = true →
       Js.truthy (Body.email body) = true →
       Js.truthy (Body.password body) = true →
       throws env UserFindOne = false →
       r = reply 409 "Email already registered")
    ∧ (Js.truthy (Body.username body) = false
       ∨ Js.truthy (Body.email body) = false
       ∨ Js.truthy (Body.password body) = false →
       r = reply 400 "Missing required fields").
Proof.
  intros Hu He. unfold AuthController.register.
  destruct (negb (Js.truthy (Body.username body))
            || negb (Js.truthy (Body.email body))
            || negb (Js.truthy (Body.password body))) eqn:Hmissing.
  - eexists _, _. split; [by apply try_catch_ok|]. simpl.
    do 3 (split; [reflexivity|]). split; [|done].
    intros Hn He' Hp _. rewrite Hn, He', Hp in Hmissing. done.
  - assert (Hall : Js.truthy (Body.username body) = true
                   ∧ Js.truthy (Body.email body) = true
                   ∧ Js.truthy (Body.password body) = true).
    { destruct (Js.truthy (Body.username body)),
        (Js.truthy (Body.email body)), (Js.truthy (Body.password body)); done. }
    destruct Hall as (Hn & He' & Hp).
    destruct (throws env UserFindOne) eqn:T.
    + eexists _, _. split.
      * erewrite try_catch_throw;
          [|by erewrite bind_throw; [|by apply User_findOne_throw]].
        reflexivity.
      * simpl. do 3 (split; [reflexivity|]). split; [done|].
        rewrite Hn, He', Hp. by intros [?|[?|?]].
    + eexists _, _. split.
      * apply try_catch_ok.
        rewrite (bind_ok _ _ _ _ _ (User_findOne_ok env _ w T)).
        rewrite He; simpl.
        rewrite bool_decide_eq_true_2 by (by apply user_by_email_elem).
        reflexivity.
      * simpl. do 3 (split; [reflexivity|]). split; [done|].
        rewrite Hn, He', Hp. by intros [?|[?|?]].
Qed.

Lemma register_known_email_witness :
  ∃ r w',
    AuthController.register (H := Sample.cleartext) Sample.quiet
      Sample.register_a Sample.registered = (Ok r, w')
    ∧ pendings w' = pendings Sample.registered
    ∧ outbox w' = outbox Sample.registered
    ∧ users w' = users Sample.registered
    ∧ r = reply 409 "Email already registered".
Proof.
  destruct (register_known_email (H := Sample.cleartext) Sample.quiet
              Sample.register_a Sample.registered Sample.alice)
    as (r & w' & Hrun & Hp & Ho & Hu & H409 & _).
  - left.
  - reflexivity.
  - exists r, w'. repeat (split; [assumption|]).
    apply H409; reflexivity.
Defined.

(** C4 as stated fails: a request with the email of an existing user and no
    password is answered 400, not 409. *)
Lemma register_known_email_missing_password :
  Sample.alice ∈ users Sample.registered
  ∧ Body.email Sample.register_a_no_password = Some (User.email Sample.alice)
  ∧ ∃ r, AuthController.register (H := Sample.cleartext) Sample.quiet
           Sample.register_a_no_password Sample.registered
         = (Ok r, Sample.registered)
         ∧ status r = 400 ∧ status r ≠ 409.
Proof.
  split; [left|]. split; [reflexivity|].
  eexists. split; [reflexivity|]. split; [reflexivity | discriminate].
Qed.

(** C5, as the code has it.  When no user has the submitted email, or the
    submitted password does not match the stored hash of the user who has it,
    the answer of [login] carries no token; it is 401 when email and password
    are both present and the calls to the store and to bcrypt complete, and
    400 with the message 'Missing credentials' when the email or the password
    is missing or empty. *)
Theorem login_bad_credentials (env : Env) `{Bcrypt} body w :
  (∀ e p u, Body.email body = Some e → Body.password body = Some p →
            user_by_email w e = Some u →
            bcrypt_compare p (User.passwordHash u) = false) →
  ∃ r w',
    AuthController.login env body w = (Ok r, w')
    ∧ token r = None
    ∧ users w' = users w
    ∧ (Js.truthy (Body.email body) = true →
       Js.truthy (Body.password body) = true →
       throws env UserFindOne = false →
       throws env BcryptCompare = false →
       status r = 401)
    ∧ (Js.truthy (Body.email body) = false
       ∨ Js.truthy (Body.password body) = false →
       r = reply 400 "Missing credentials" ∧ w' = w).
Proof.
  intros Hbad. unfold AuthController.login.
  destruct (Js.truthy (Body.email body)) eqn:He; simpl;
    [|eexists _, _; split; [by apply try_catch_ok | by simpl]].
  destruct (Js.truthy (Body.password body)) eqn:Hp; simpl;
    [|eexists _, _; split; [by apply try_catch_ok | by simpl]].
  apply truthy_Some in He as (e & He & _).
  apply truthy_Some in Hp as (p & Hp & _).
  rewrite He, Hp; simpl.
  destruct (throws env UserFindOne) eqn:T1.
  { eexists _, _. split.
    - erewrite try_catch_throw;
        [|by erewrite bind_throw; [|by apply User_findOne_throw]].
      reflexivity.
    - simpl. split_and!; try done. by intros [?|?]. }
  destruct (user_by_email w e) as [u|] eqn:Hfind.
  - destruct (throws env BcryptCompare) eqn:T2.
    + eexists _, _. split.
      * erewrite try_catch_throw; [reflexivity|].
        rewrite (bind_ok _ _ _ _ _ (User_findOne_ok env e w T1)), Hfind.
        apply bind_throw. unfold compare.
        by rewrite (bind_throw _ _ _ _ _ (call_throw env _ _ T2)).
      * simpl. split_and!; try done. by intros [?|?].
    + eexists _, _. split.
      * apply try_catch_ok.
        rewrite (bind_ok _ _ _ _ _ (User_findOne_ok env e w T1)), Hfind.
        unfold compare.
        erewrite bind_ok;
          [|by rewrite (bind_ok _ _ _ _ _ (call_ok env _ _ T2))].
        rewrite (Hbad e p u He Hp Hfind). reflexivity.
      * simpl. split_and!; try done. by intros [?|?].
  - eexists _, _. split.
    + apply try_catch_ok.
      rewrite (bind_ok _ _ _ _ _ (User_findOne_ok env e w T1)), Hfind.
      reflexivity.
    + simpl. split_and!; try done. by intros [?|?].
Qed.

Lemma login_bad_credentials_witness :
  ∃ r w',
    AuthController.login (H := Sample.cleartext) Sample.quiet
      Sample.login_a_wrong Sample.registered = (Ok r, w')
    ∧ token r = None
    ∧ users w' = users Sample.registered
    ∧ status r = 401.
Proof.
  destruct (login_bad_credentials (H := Sample.cleartext) Sample.quiet
              Sample.login_a_wrong Sample.registered)
    as (r & w' & Hrun & Htok & Hu & H401 & _).
  - intros e p u [= <-] [= <-] [= <-]. reflexivity.
  - exists r, w'. repeat (split; [assumption|]).
    apply H401; reflexivity.
Defined.

(** C5 as stated fails: a login for an email that no user has, sent without
    a password, is answered 400, not 401. *)
Lemma login_unknown_email_missing_password :
  user_by_email Sample.nowhere "ghost@x.com" = None
  ∧ Body.email Sample.login_ghost_no_password = Some "ghost@x.com"
  ∧ ∃ r, AuthController.login (H := Sample.cleartext) Sample.quiet
           Sample.login_ghost_no_password Sample.nowhere
         = (Ok r, Sample.nowhere)
         ∧ status r = 400 ∧ status r ≠ 401.
Proof.
  split; [reflexivity|]. split; [reflexivity|].
  eexists. split; [reflexivity|]. split; [reflexivity | discriminate].
Qed.

(** C2, as the code has it.  A login whose email and password are both
    non-empty, whose email is that of a user and whose password matches the
    stored hash of that user, is answered with a signed token and a payload;
    the payload's id, username, role and email are the user's, and the token
    is the signature of exactly that payload.  The calls to the store, to
    bcrypt and to the signer are taken to complete. *)
Theorem login_issues_token (env : Env) `{Bcrypt} body w e p u :
  Body.email body = Some e →
  Body.password body = Some p →
  e ≠ "" →
  p ≠ "" →
  user_by_email w e = Some u →
  bcrypt_compare p (User.passwordHash u) = true →
  throws env UserFindOne = false →
  throws env BcryptCompare = false →
  throws env JwtSign = false →
  ∃ tok payload,
    AuthController.login env body w =
      (Ok (mkResponse 200 None (Some tok) (Some payload) None None), w)
    ∧ Payload.id payload = User.id u
    ∧ Payload.username payload = User.username u
    ∧ Payload.role payload = User.role u
    ∧ Payload.email payload = User.email u
    ∧ jwt_decode tok = payload
    ∧ tok = Signed payload (JWT_SECRET env)
                   (Js.or_else (JWT_EXPIRES_IN env) "7d").
Proof.
  intros He Hp Hne Hnp Hfind Hvalid T1 T2 T3.
  set (payload := Payload.mk (User.id u) (User.username u) (User.role u)
                             (User.email u)).
  exists (Signed payload (JWT_SECRET env) (Js.or_else (JWT_EXPIRES_IN env) "7d")),
         payload.
  split; [|done].
  unfold AuthController.login. apply try_catch_ok.
  rewrite He, Hp, !truthy_nonempty by done. simpl.
  rewrite (bind_ok _ _ _ _ _ (User_findOne_ok env e w T1)), Hfind.
  unfold compare.
  erewrite bind_ok; [|by rewrite (bind_ok _ _ _ _ _ (call_ok env _ _ T2))].
  rewrite Hvalid. simpl. unfold jwt_sign.
  erewrite bind_ok; [|by rewrite (bind_ok _ _ _ _ _ (call_ok env _ _ T3))].
  reflexivity.
Qed.

Lemma login_issues_token_witness :
  ∃ tok payload,
    AuthController.login (H := Sample.cleartext) Sample.quiet Sample.login_a
      Sample.registered =
      (Ok (mkResponse 200 None (Some tok) (Some payload) None None),
       Sample.registered)
    ∧ Payload.id payload = User.id Sample.alice
    ∧ Payload.username payload = User.username Sample.alice
    ∧ Payload.role payload = User.role Sample.alice
    ∧ Payload.email payload = User.email Sample.alice
    ∧ jwt_decode tok = payload
    ∧ tok = Signed payload "secret" "7d".
Proof.
  apply (login_issues_token (H := Sample.cleartext) Sample.quiet
           Sample.login_a Sample.registered "a@x.com" "p" Sample.alice);
    try reflexivity; discriminate.
Defined.

(** C2 as stated fails: the stored hash of a user matches the empty
    password, and a login with that user's email and the empty password is
    answered 400 without a token. *)
Lemma login_empty_password_rejected :
  user_by_email Sample.seeded "b@x.com" = Some Sample.blank
  ∧ Body.email Sample.login_blank = Some "b@x.com"
  ∧ Body.password Sample.login_blank = Some ""
  ∧ bcrypt_compare (Bcrypt := Sample.cleartext) ""
      (User.passwordHash Sample.blank) = true
  ∧ ∃ r, AuthController.login (H := Sample.cleartext) Sample.quiet
           Sample.login_blank Sample.seeded
         = (Ok r, Sample.seeded)
         ∧ status r = 400 ∧ token r = None.
Proof.
  do 4 (split; [reflexivity|]).
  eexists. split; [reflexivity|]. split; reflexivity.
Qed.

(** * Password reset *)

(** The run of a reset that passes every check. *)
Lemma verifyOtpReset_run (env : Env) `{Bcrypt} body w e o p u t :
  Body.email body = Some e →
  Body.otp body = Some o →
  Body.newPassword body = Some p →
  e ≠ "" → o ≠ "" → p ≠ "" →
  user_by_email w e = Some u →
  User.otp u = Some o →
  User.otpExpires u = Some t →
  clock env 0%nat ≤ t →
  throws env UserFindOne = false →
  throws env BcryptHash = false →
  throws env UserSave = false →
  AuthController.verifyOtpReset env body w =
    (Ok (reply 200 "Password updated successfully"),
     mkWorld
       (List.map
          (λ x, if Z.eqb (User.id x) (User.id u)
                then User.mk (User.id u) (User.username u) (User.name u)
                       (User.email u) (bcrypt_hash p 10 (salt env))
                       (User.phone u) (User.role u) None None
                else x)
          (users w))
       (nextUserId w) (pendings w) (metrics w) (outbox w) (console w)).
Proof.
  intros He Ho Hp Hne Hno Hnp Hfind Hotp Hexp Hle T1 T2 T3.
  unfold AuthController.verifyOtpReset. apply try_catch_ok.
  rewrite He, Ho, Hp, !truthy_nonempty by done. simpl.
  rewrite (bind_ok _ _ _ _ _ (User_findOne_ok env e w T1)), Hfind.
  rewrite Hotp, Hexp, truthy_nonempty by done.
  rewrite bool_decide_eq_true_2 by done.
  unfold AuthController.expired; simpl.
  destruct (Z.ltb_spec t (clock env 0%nat)); [lia|]. simpl.
  unfold hash.
  erewrite bind_ok; [|by rewrite (bind_ok _ _ _ _ _ (call_ok env _ _ T2))].
  erewrite bind_ok; [|by apply User_save_ok].
  reflexivity.
Qed.

(** C8, as the code has it.  A reset request whose email, OTP and new
    password are all non-empty, sent for a user whose stored OTP is the
    submitted one and whose OTP expiry is not in the past, sets that user's
    password hash to the hash of the new password and the OTP and its expiry
    to null; id, username, name, email, phone and role stay, and so does
    every row with another id.  The calls to the store and to bcrypt are
    taken to complete. *)
Theorem verifyOtpReset_frame (env : Env) `{Bcrypt} body w e o p u t :
  Body.email body = Some e →
  Body.otp body = Some o →
  Body.newPassword body = Some p →
  e ≠ "" → o ≠ "" → p ≠ "" →
  user_by_email w e = Some u →
  User.otp u = Some o →
  User.otpExpires u = Some t →
  clock env 0%nat ≤ t →
  throws env UserFindOne = false →
  throws env BcryptHash = false →
  throws env UserSave = false →
  ∃ u' w',
    AuthController.verifyOtpReset env body w =
      (Ok (reply 200 "Password updated successfully"), w')
    ∧ User.passwordHash u' = bcrypt_hash p 10 (salt env)
    ∧ User.otp u' = None
    ∧ User.otpExpires u' = None
    ∧ User.id u' = User.id u
    ∧ User.username u' = User.username u
    ∧ User.name u' = User.name u
    ∧ User.email u' = User.email u
    ∧ User.phone u' = User.phone u
    ∧ User.role u' = User.role u
    ∧ users w' =
        List.map (λ x, if Z.eqb (User.id x) (User.id u) then u' else x) (users w)
    ∧ u' ∈ users w'.
Proof.
  intros He Ho Hp Hne Hno Hnp Hfind Hotp Hexp Hle T1 T2 T3.
  exists (User.mk (User.id u) (User.username u) (User.name u) (User.email u)
                  (bcrypt_hash p 10 (salt env)) (User.phone u) (User.role u)
                  None None).
  eexists. split; [by eapply verifyOtpReset_run|].
  simpl. do 10 (split; [reflexivity|]).
  apply user_by_email_Some in Hfind as [Hin _].
  apply list_elem_of_In, List.in_map_iff. exists u.
  split; [by rewrite Z.eqb_refl | by apply list_elem_of_In].
Qed.

Lemma verifyOtpReset_frame_witness :
  ∃ u' w',
    AuthController.verifyOtpReset (H := Sample.cleartext) Sample.quiet
      Sample.reset_a Sample.registered =
      (Ok (reply 200 "Password updated successfully"), w')
    ∧ User.passwordHash u' = "salt$n3w"
    ∧ User.otp u' = None
    ∧ User.otpExpires u' = None
    ∧ User.id u' = User.id Sample.alice
    ∧ User.username u' = User.username Sample.alice
    ∧ User.name u' = User.name Sample.alice
    ∧ User.email u' = User.email Sample.alice
    ∧ User.phone u' = User.phone Sample.alice
    ∧ User.role u' = User.role Sample.alice
    ∧ users w' =
        List.map (λ x, if Z.eqb (User.id x) (User.id Sample.alice) then u' else x)
                 (users Sample.registered)
    ∧ u' ∈ users w'.
Proof.
  apply (verifyOtpReset_frame (H := Sample.cleartext) Sample.quiet
           Sample.reset_a Sample.registered "a@x.com" "550000" "n3w"
           Sample.alice 901000);
    try reflexivity; try discriminate.
Defined.

(** C8 as stated fails: the stored OTP is non-null, equals the submitted one
    and has not expired, yet a request with an empty new password is answered
    400 and the user keeps the password hash and the OTP. *)
Lemma verifyOtpReset_empty_password_rejected :
  user_by_email Sample.registered "a@x.com" = Some Sample.alice
  ∧ User.otp Sample.alice = Body.otp Sample.reset_a_empty
  ∧ User.otp Sample.alice ≠ None
  ∧ User.otpExpires Sample.alice = Some 901000
  ∧ clock Sample.quiet 0%nat ≤ 901000
  ∧ Body.newPassword Sample.reset_a_empty = Some ""
  ∧ ∃ r, AuthController.verifyOtpReset (H := Sample.cleartext) Sample.quiet
           Sample.reset_a_empty Sample.registered
         = (Ok r, Sample.registered)
         ∧ status r = 400
         ∧ users Sample.registered = [Sample.alice]
         ∧ User.passwordHash Sample.alice
           ≠ bcrypt_hash (Bcrypt := Sample.cleartext) "" 10 (salt Sample.quiet)
         ∧ User.otp Sample.alice ≠ None.
Proof.
  split; [reflexivity|]. split; [reflexivity|]. split; [discriminate|].
  split; [reflexivity|]. split; [vm_compute; discriminate|].
  split; [reflexivity|].
  eexists. split; [reflexivity|]. split; [reflexivity|].
  split; [reflexivity|]. split; discriminate.
Qed.

Lemma find_app_None {A} (P : A → bool) (l l' : list A) :
  List.find P l = None → List.find P (l ++ l') = List.find P l'.
Proof.
  induction l as [|x l IH]; simpl; [done|].
  destruct (P x); [done | exact IH].
Qed.

(** After the save of [u'] over the row of [u], the lookup of [u']'s email
    finds [u'], provided the rows with that email had [u]'s id. *)
Lemma find_saved (l : list User.t) (u u' : User.t) e :
  u ∈ l →
  User.email u' = e →
  (∀ x, x ∈ l → User.email x = e → User.id x = User.id u) →
  List.find (λ x, String.eqb (User.email x) e)
    (List.map (λ x, if Z.eqb (User.id x) (User.id u) then u' else x) l)
  = Some u'.
Proof.
  intros Hin He. induction l as [|x l IH]; intros Hids; [inversion Hin|].
  simpl. destruct (Z.eqb_spec (User.id x) (User.id u)) as [Hid|Hid].
  - by rewrite He, String.eqb_refl.
  - destruct (String.eqb_spec (User.email x) e) as [Hx|Hx].
    + exfalso. apply Hid, Hids; [left | done].
    + apply IH.
      * inversion Hin; subst; [done | assumption].
      * intros y Hy. apply Hids. by right.
Qed.

(** C10, as the code has it.  After a successful verification the new user
    carries the OTP and the expiry of the pending row; until that expiry
    passes, a reset request with the same email, that OTP and a non-empty new
    password (email and OTP being non-empty too) is answered 200 and sets the
    user's password hash to the hash of the new password, no reset OTP having
    been issued.  The calls to the store and to bcrypt are taken to
    complete. *)
Theorem registration_otp_resets_password (env env' : Env) `{Bcrypt}
    body reset w e row p :
  Body.email body = Some e →
  pendings w !! e = Some row →
  Body.otp body = Some (PendingUser.otp row) →
  clock env 0%nat ≤ PendingUser.expires row →
  (∀ u, u ∈ users w → User.email u ≠ e) →
  throws env PendingFindByPk = false →
  throws env UserFindOne = false →
  throws env UserCreate = false →
  throws env PendingDestroy = false →
  Body.email reset = Some e →
  Body.otp reset = Some (PendingUser.otp row) →
  Body.newPassword reset = Some p →
  e ≠ "" → PendingUser.otp row ≠ "" → p ≠ "" →
  clock env' 0%nat ≤ PendingUser.expires row →
  throws env' UserFindOne = false →
  throws env' BcryptHash = false →
  throws env' UserSave = false →
  ∃ u w1 u2 w2,
    AuthController.verifyRegistration env body w =
      (Ok (mkResponse 201 (Some "Registration successful") None None
                      (Some (User.id u)) None), w1)
    ∧ user_by_email w1 e = Some u
    ∧ User.otp u = Some (PendingUser.otp row)
    ∧ User.otpExpires u = Some (PendingUser.expires row)
    ∧ AuthController.verifyOtpReset env' reset w1 =
        (Ok (reply 200 "Password updated successfully"), w2)
    ∧ user_by_email w2 e = Some u2
    ∧ User.id u2 = User.id u
    ∧ User.passwordHash u2 = bcrypt_hash p 10 (salt env')
    ∧ User.otp u2 = None
    ∧ User.otpExpires u2 = None.
Proof.
  intros He Hrow Hotp Hexp Hnone T1 T2 T3 T4 He' Hotp' Hp Hne Hno Hnp Hexp'
    T1' T2' T3'.
  set (u := User.mk (nextUserId w) (PendingUser.username row)
              (PendingUser.name row) e (PendingUser.passwordHash row)
              (PendingUser.phone row) (PendingUser.role row)
              (Some (PendingUser.otp row)) (Some (PendingUser.expires row))).
  destruct (updateMetrics_nonblocking env
    (mkWorld (users w ++ [u]) (nextUserId w + 1) (pendings w) (metrics w)
             (outbox w) (console w)))
    as (wm & Hm & Hu & _).
  simpl in Hu.
  set (w1 := mkWorld (users wm) (nextUserId wm) (delete e (pendings wm))
                     (metrics wm) (outbox wm) (console wm)).
  assert (Hfind : user_by_email w1 e = Some u).
  { unfold user_by_email, w1; simpl. rewrite Hu.
    apply user_by_email_None in Hnone. unfold user_by_email in Hnone.
    rewrite (find_app_None _ _ _ Hnone). simpl. by rewrite String.eqb_refl. }
  set (u2 := User.mk (User.id u) (User.username u) (User.name u) (User.email u)
               (bcrypt_hash p 10 (salt env')) (User.phone u) (User.role u)
               None None).
  exists u, w1, u2. eexists.
  split.
  { apply (verifyRegistration_run env body w e row); try done.
    by apply user_by_email_None. }
  split; [done|]. split; [done|]. split; [done|].
  split.
  { by apply (verifyOtpReset_run env' reset w1 e (PendingUser.otp row) p u
                (PendingUser.expires row)). }
  split; [|done].
  unfold user_by_email; simpl. rewrite Hu.
  apply (find_saved (users w ++ [u]) u u2 e); [|done|].
  - apply elem_of_app. right. left.
  - intros x Hx Hxe. apply elem_of_app in Hx as [Hx|Hx].
    + exfalso. by apply (Hnone x).
    + apply list_elem_of_singleton in Hx. by rewrite Hx.
Qed.

Lemma registration_otp_resets_password_witness :
  ∃ u w1 u2 w2,
    AuthController.verifyRegistration Sample.quiet Sample.verify_a
      Sample.awaiting =
      (Ok (mkResponse 201 (Some "Registration successful") None None
                      (Some (User.id u)) None), w1)
    ∧ user_by_email w1 "a@x.com" = Some u
    ∧ User.otp u = Some (PendingUser.otp Sample.row_a)
    ∧ User.otpExpires u = Some (PendingUser.expires Sample.row_a)
    ∧ AuthController.verifyOtpReset (H := Sample.cleartext) Sample.quiet
        Sample.reset_a w1 =
        (Ok (reply 200 "Password updated successfully"), w2)
    ∧ user_by_email w2 "a@x.com" = Some u2
    ∧ User.id u2 = User.id u
    ∧ User.passwordHash u2 = "salt$n3w"
    ∧ User.otp u2 = None
    ∧ User.otpExpires u2 = None.
Proof.
  apply (registration_otp_resets_password (H := Sample.cleartext)
           Sample.quiet Sample.quiet Sample.verify_a Sample.reset_a
           Sample.awaiting "a@x.com" Sample.row_a "n3w");
    try reflexivity; try discriminate.
  intros u Hu. inversion Hu.
Defined.

(** C10 as stated fails: after a successful verification, a reset request
    with the same email and the registration OTP, whose new password is
    empty, is answered 400 and resets nothing. *)
Lemma registration_otp_reset_empty_password :
  ∃ u w1,
    AuthController.verifyRegistration Sample.quiet Sample.verify_a
      Sample.awaiting =
      (Ok (mkResponse 201 (Some "Registration successful") None None
                      (Some (User.id u)) None), w1)
    ∧ users w1 = [u]
    ∧ Body.email Sample.reset_a_empty = Body.email Sample.verify_a
    ∧ Body.otp Sample.reset_a_empty = Body.otp Sample.verify_a
    ∧ Some (PendingUser.otp Sample.row_a) = Body.otp Sample.reset_a_empty
    ∧ clock Sample.quiet 0%nat ≤ PendingUser.expires Sample.row_a
    ∧ ∃ r, AuthController.verifyOtpReset (H := Sample.cleartext) Sample.quiet
             Sample.reset_a_empty w1 = (Ok r, w1)
           ∧ status r = 400.
Proof.
  exists Sample.alice. eexists.
  split; [reflexivity|]. split; [reflexivity|]. split; [reflexivity|].
  split; [reflexivity|]. split; [reflexivity|].
  split; [vm_compute; discriminate|].
  eexists. split; reflexivity.
Qed.

(** * The role gate *)

(** C6.  At a [requireRole(...roles)] gate, a request whose attached user has
    a role among [roles] is handed on (the gate calls [next]); a request
    whose attached user has another role, or that has no user attached, is
    answered 403 and is not handed on. *)
Theorem requireRole_gate (roles : list string) (user : option User.t) :
  (∀ u, user = Some u → User.role u ∈ roles →
        AuthMiddleware.requireRole roles user = AuthMiddleware.Next)
  ∧ (∀ u, user = Some u → User.role u ∉ roles →
          AuthMiddleware.requireRole roles user
          = AuthMiddleware.Respond (reply 403 "Access denied"))
  ∧ (user = None →
     AuthMiddleware.requireRole roles user
     = AuthMiddleware.Respond (reply 403 "Access denied")).
Proof.
  unfold AuthMiddleware.requireRole, AuthMiddleware.denied,
    AuthMiddleware.includes.
  split; [|split].
  - intros u -> Hin. by rewrite bool_decide_eq_true_2.
  - intros u -> Hout. by rewrite bool_decide_eq_false_2.
  - by intros ->.
Qed.

Lemma requireRole_gate_witness :
  AuthMiddleware.requireRole ["admin"; "manager"] (Some Sample.admin_bob)
  = AuthMiddleware.Next
  ∧ AuthMiddleware.requireRole ["staff"] (Some Sample.admin_bob)
    = AuthMiddleware.Respond (reply 403 "Access denied").
Proof.
  split.
  - apply (proj1 (requireRole_gate ["admin"; "manager"] (Some Sample.admin_bob))
             Sample.admin_bob); [reflexivity | left].
  - apply (proj1 (proj2 (requireRole_gate ["staff"] (Some Sample.admin_bob)))
             Sample.admin_bob); [reflexivity|].
    intros Hin. apply list_elem_of_singleton in Hin. discriminate.
Defined.

(** * The time series *)

Section TimeSeries.

Import MetricsController.

#[local] Instance by_date_total : Total by_date.
Proof. intros a b. unfold by_date. lia. Qed.










End TimeSeries.




(** * Decimal renderings *)

Section Decimal.

Import MetricsController.

Lemma str_app_cons c (s t : string) : String c s ++ t = String c (s ++ t).
Proof. reflexivity. Qed.

Lemma str_app_assoc (s t r : string) : (s ++ t) ++ r = s ++ (t ++ r).
Proof.
  induction s as [|c s IH]; [reflexivity|].
  by rewrite !str_app_cons, IH.
Qed.

Lemma str_app_nil_r (s : string) : s ++ "" = s.
Proof.
  induction s as [|c s IH]; [reflexivity|].
  by rewrite str_app_cons, IH.
Qed.

Lemma str_app_length (s t : string) :
  String.length (s ++ t) = (String.length s + String.length t)%nat.
Proof.
  induction s as [|c s IH]; [reflexivity|].
  rewrite str_app_cons. simpl. by rewrite IH.
Qed.

Lemma all_decimal_app (s t : string) :
  all_decimal (s ++ t) = all_decimal s && all_decimal t.
Proof.
  induction s as [|c s IH]; [reflexivity|].
  rewrite str_app_cons. simpl. by rewrite IH, andb_assoc.
Qed.

Lemma pretty_N_go_app (x : N) (s : string) :
  pretty_N_go x s = pretty_N_go x "" ++ s.
Proof.
  revert s. induction (N.lt_wf_0 x) as [x _ IH]; intros s.
  destruct (decide (x = 0)%N) as [->|Hx]; [done|].
  rewrite (pretty_N_go_step x s), (pretty_N_go_step x "") by lia.
  rewrite (IH (x `div` 10)%N ltac:(apply N.div_lt; lia) (String _ s)).
  rewrite (IH (x `div` 10)%N ltac:(apply N.div_lt; lia) (String _ "")).
  by rewrite str_app_assoc.
Qed.

(** The rendering of [x] is that of [x / 10] followed by the last digit. *)
Lemma pretty_N_go_snoc (x : N) :
  (0 < x)%N →
  pretty_N_go x "" =
    pretty_N_go (x `div` 10) "" ++ String (pretty_N_char (x `mod` 10)) "".
Proof.
  intros Hx. by rewrite pretty_N_go_step, pretty_N_go_app.
Qed.

Lemma small_cases (k : N) :
  (k < 10)%N →
  (k = 0 ∨ k = 1 ∨ k = 2 ∨ k = 3 ∨ k = 4 ∨ k = 5 ∨ k = 6 ∨ k = 7 ∨ k = 8
   ∨ k = 9)%N.
Proof. lia. Qed.

Lemma digit_of_pretty_N_char (k : N) :
  (k < 10)%N → digit_of 10 (pretty_N_char k) = Some (Z.of_N k).
Proof.
  intros Hk%small_cases.
  repeat destruct Hk as [->|Hk]; try reflexivity. by subst.
Qed.

Lemma is_decimal_pretty_N_char (k : N) : is_decimal (pretty_N_char k) = true.
Proof.
  destruct (decide (k < 10)%N) as [Hk%small_cases|Hk].
  - repeat destruct Hk as [->|Hk]; try reflexivity. by subst.
  - unfold pretty_N_char. repeat case_match; reflexivity.
Qed.

Lemma all_decimal_pretty_N_go (x : N) : all_decimal (pretty_N_go x "") = true.
Proof.
  induction (N.lt_wf_0 x) as [x _ IH].
  destruct (decide (x = 0)%N) as [->|Hx]; [done|].
  rewrite pretty_N_go_snoc, all_decimal_app by lia.
  rewrite IH by (apply N.div_lt; lia). simpl.
  by rewrite is_decimal_pretty_N_char.
Qed.

(** A number of [k + 1] digits renders as [k + 1] characters. *)
Lemma pretty_N_go_length (k : nat) (x : N) :
  (10 ^ N.of_nat k ≤ x < 10 ^ N.of_nat (S k))%N →
  String.length (pretty_N_go x "") = S k.
Proof.
  revert x. induction k as [|k IH]; intros x Hx.
  - change (10 ^ N.of_nat 0)%N with 1%N in Hx.
    change (10 ^ N.of_nat 1)%N with 10%N in Hx.
    rewrite pretty_N_go_snoc by lia.
    rewrite N.div_small by lia. reflexivity.
  - rewrite pretty_N_go_snoc, str_app_length.
    + rewrite IH; [simpl; lia|].
      rewrite !Nat2N.inj_succ, !N.pow_succ_r' in *.
      split.
      * apply N.div_le_lower_bound; lia.
      * apply N.Div0.div_lt_upper_bound; lia.
    + pose proof (N.pow_nonzero 10 (N.of_nat (S k))). lia.
Qed.

(** The first character of the rendering of a positive number is a digit
    other than ['0']. *)
Lemma pretty_N_go_head (x : N) :
  (0 < x)%N →
  ∃ k rest, (1 ≤ k < 10)%N ∧ pretty_N_go x "" = String (pretty_N_char k) rest.
Proof.
  induction (N.lt_wf_0 x) as [x _ IH]; intros Hx.
  rewrite pretty_N_go_snoc by done.
  destruct (decide (x < 10)%N) as [Hsmall|Hbig].
  - exists x, "". rewrite N.div_small, N.mod_small by done. by split; [lia|].
  - destruct (IH (x `div` 10)%N) as (k & rest & Hk & Heq).
    + apply N.div_lt; lia.
    + apply N.div_str_pos; lia.
    + exists k, (rest ++ String (pretty_N_char (x `mod` 10)) "").
      split; [done|]. by rewrite Heq.
Qed.

Lemma digits_app_pretty (x : N) (acc : option Z) (t : string) :
  digits 10 acc (pretty_N_go x "" ++ t) =
  digits 10 (if decide (x = 0)%N then acc
             else Some (default 0 acc
                        * 10 ^ Z.of_nat (String.length (pretty_N_go x ""))
                        + Z.of_N x)) t.
Proof.
  revert acc t. induction (N.lt_wf_0 x) as [x _ IH]; intros acc t.
  destruct (decide (x = 0)%N) as [->|Hx]; [done|].
  rewrite (pretty_N_go_snoc x) by lia.
  rewrite str_app_assoc, str_app_cons.
  rewrite IH by (apply N.div_lt; lia).
  change ("" ++ t) with t. cbn [digits].
  rewrite digit_of_pretty_N_char by (apply N.mod_lt; lia).
  f_equal. f_equal.
  rewrite str_app_length. cbn [String.length].
  rewrite Nat2Z.inj_add, Z.pow_add_r by lia.
  pose proof (N.div_mod x 10 ltac:(lia)) as Hdm.
  destruct (decide (x `div` 10 = 0)%N) as [Hz|Hz].
  - rewrite Hz in *. rewrite pretty_N_go_0. simpl. lia.
  - simpl. lia.
Qed.

Lemma pretty_Z_pos (z : Z) :
  0 < z → pretty z = pretty_N_go (Z.to_N z) "".
Proof.
  destruct z as [|p|p]; try lia. intros _.
  unfold pretty, pretty_Z, pretty, pretty_positive, pretty, pretty_N.
  by rewrite decide_False.
Qed.

(** *** Doubles of integers *)

Lemma shift_small (m : Z) : 0 ≤ m < 2 ^ 53 → Double.shift m = 0.
Proof.
  intros [Hlo Hhi]. unfold Double.shift.
  destruct (decide (m = 0)) as [->|Hm]; [done|].
  assert (Z.log2 m < 53) by (apply Z.log2_lt_pow2; lia). lia.
Qed.

(** An integer below [2^53] is a double. *)
Lemma nearest_small (m : Z) : 0 ≤ m < 2 ^ 53 → Double.nearest m = m.
Proof.
  intros Hm. unfold Double.nearest. rewrite shift_small by done.
  change (2 ^ 0) with 1. rewrite Z.div_1_r, Z.mod_1_r. simpl. lia.
Qed.

Lemma shift_nonneg (m : Z) : 0 ≤ Double.shift m.
Proof. unfold Double.shift. lia. Qed.

Lemma shift_le (m b : Z) : 0 ≤ b → 0 ≤ m < 2 ^ (53 + b) → Double.shift m ≤ b.
Proof.
  intros Hb [Hlo Hhi]. unfold Double.shift.
  destruct (decide (m = 0)) as [->|Hm]; [simpl; lia|].
  assert (Z.log2 m < 53 + b) by (apply Z.log2_lt_pow2; lia). lia.
Qed.

(** Rounding does not cross a number that is a multiple of the rounding
    step. *)
Lemma nearest_le_multiple (m R : Z) :
  0 ≤ m → m ≤ R → (2 ^ Double.shift m | R) → Double.nearest m ≤ R.
Proof.
  intros Hm HmR [K ->]. unfold Double.nearest.
  pose proof (shift_nonneg m) as Hs.
  set (s := Double.shift m) in *.
  assert (Hpos : 0 < 2 ^ s) by (apply Z.pow_pos_nonneg; lia).
  pose proof (Z.div_mod m (2 ^ s) ltac:(lia)) as Hdm.
  pose proof (Z.mod_pos_bound m (2 ^ s) Hpos) as Hr.
  set (q := m `div` 2 ^ s) in *. set (r := m `mod` 2 ^ s) in *.
  destruct (_ || _) eqn:Hup.
  - assert (0 < r).
    { apply orb_true_iff in Hup as [Hup|Hup].
      - apply Z.ltb_lt in Hup. lia.
      - apply andb_true_iff in Hup as [Hup _]. apply Z.eqb_eq in Hup. lia. }
    apply Z.mul_le_mono_nonneg_r; [lia|]. nia.
  - apply Z.mul_le_mono_nonneg_r; [lia|]. nia.
Qed.

Lemma nearest_ge_multiple (m R : Z) :
  0 ≤ m → R ≤ m → (2 ^ Double.shift m | R) → R ≤ Double.nearest m.
Proof.
  intros Hm HmR [K ->]. unfold Double.nearest.
  pose proof (shift_nonneg m) as Hs.
  set (s := Double.shift m) in *.
  assert (Hpos : 0 < 2 ^ s) by (apply Z.pow_pos_nonneg; lia).
  pose proof (Z.div_mod m (2 ^ s) ltac:(lia)) as Hdm.
  pose proof (Z.mod_pos_bound m (2 ^ s) Hpos) as Hr.
  set (q := m `div` 2 ^ s) in *. set (r := m `mod` 2 ^ s) in *.
  destruct (_ || _); apply Z.mul_le_mono_nonneg_r; try lia; nia.
Qed.

Lemma pow2_divide (a b : Z) : 0 ≤ a ≤ b → (2 ^ a | 2 ^ b).
Proof.
  intros Hab. exists (2 ^ (b - a)).
  rewrite <- Z.pow_add_r by lia. f_equal. lia.
Qed.

(** The product of [genOTP]: below 900000 by at least one step of the
    doubles there. *)
Lemma product_bound (k : Z) :
  0 ≤ k < 2 ^ 53 →
  0 ≤ Double.nearest (k * 900000) ≤ 900000 * 2 ^ 53 - 2 ^ 20.
Proof.
  intros Hk. split.
  { apply (nearest_ge_multiple _ 0); [lia..|]. apply Z.divide_0_r. }
  destruct (decide (k * 900000 < 2 ^ 72)) as [Hlow|Hhigh].
  - etrans; [apply (nearest_le_multiple _ (2 ^ 72)); [lia..|]|lia].
    apply pow2_divide. split; [apply shift_nonneg|].
    apply shift_le; lia.
  - assert (Hs : Double.shift (k * 900000) = 20).
    { unfold Double.shift.
      rewrite (Z.log2_unique (k * 900000) 72) by lia. lia. }
    unfold Double.nearest. rewrite Hs.
    change (2 ^ 20) with 1048576.
    pose proof (Z.div_mod (k * 900000) 1048576 ltac:(lia)) as Hdm.
    pose proof (Z.mod_pos_bound (k * 900000) 1048576 ltac:(lia)) as Hr.
    set (q := (k * 900000) `div` 1048576) in *.
    set (r := (k * 900000) `mod` 1048576) in *.
    destruct (_ || _) eqn:Hup.
    + assert (524288 ≤ r).
      { apply orb_true_iff in Hup as [Hup|Hup].
        - apply Z.ltb_lt in Hup. lia.
        - apply andb_true_iff in Hup as [Hup _]. apply Z.eqb_eq in Hup. lia. }
      lia.
    + lia.
Qed.

(** The number [genOTP] writes. *)
Lemma otp_number_bound (k : Z) :
  0 ≤ k < 2 ^ 53 →
  100000
  ≤ Double.nearest (100000 * 2 ^ 53 + Double.nearest (k * 900000)) `div` 2 ^ 53
  ≤ 999999.
Proof.
  intros Hk. pose proof (product_bound k Hk) as [Hp0 Hp1].
  set (p := Double.nearest (k * 900000)) in *.
  assert (Hshift : Double.shift (100000 * 2 ^ 53 + p) ≤ 20)
    by (apply shift_le; lia).
  pose proof (shift_nonneg (100000 * 2 ^ 53 + p)) as Hshift0.
  assert (Hlo : 100000 * 2 ^ 53 ≤ Double.nearest (100000 * 2 ^ 53 + p)).
  { apply nearest_ge_multiple; [lia..|].
    etrans; [apply (pow2_divide _ 53); lia|]. by exists 100000. }
  assert (Hhi : Double.nearest (100000 * 2 ^ 53 + p)
                ≤ 1000000 * 2 ^ 53 - 2 ^ 20).
  { apply nearest_le_multiple; [lia..|].
    etrans; [apply (pow2_divide _ 20); lia|].
    exists (1000000 * 2 ^ 33 - 1). lia. }
  split.
  - apply Z.div_le_lower_bound; lia.
  - assert (Double.nearest (100000 * 2 ^ 53 + p) `div` 2 ^ 53 < 1000000);
      [|lia].
    apply Z.div_lt_upper_bound; lia.
Qed.

(** [parseInt] reads a string that starts with a digit from 1 to 9 in radix
    10, without a sign. *)
Lemma parseInt_digit_start (k : N) (s : string) :
  (1 ≤ k < 10)%N →
  parseInt (String (pretty_N_char k) s) =
    match digits 10 None (String (pretty_N_char k) s) with
    | Some n => ofInteger (1 * n)
    | None => NaN
    end.
Proof.
  intros Hk.
  assert (k = 1 ∨ k = 2 ∨ k = 3 ∨ k = 4 ∨ k = 5 ∨ k = 6 ∨ k = 7 ∨ k = 8
          ∨ k = 9)%N as Hcases by lia.
  repeat destruct Hcases as [->|Hcases]; try reflexivity. by subst.
Qed.

Lemma ofInteger_small (n : Z) : 0 < n < 2 ^ 53 → ofInteger n = Finite n.
Proof.
  intros Hn. unfold ofInteger.
  rewrite Z.abs_eq, nearest_small by lia.
  rewrite (proj2 (Z.leb_gt _ _)).
  - f_equal. rewrite Z.sgn_pos; lia.
  - etrans; [apply Hn|]. apply Z.pow_lt_mono_r; lia.
Qed.

(** Reading back the rendering of a positive number below [2^53]. *)
Lemma parseInt_pretty (n : Z) :
  0 < n < 2 ^ 53 → parseInt (pretty n) = Finite n.
Proof.
  intros Hn. rewrite pretty_Z_pos by lia.
  destruct (pretty_N_go_head (Z.to_N n)) as (k & rest & Hk & Heq); [lia|].
  rewrite Heq, parseInt_digit_start by done. rewrite <- Heq.
  rewrite <- (str_app_nil_r (pretty_N_go _ _)), digits_app_pretty.
  rewrite decide_False by lia. simpl.
  replace (1 * (0 * _ + _)) with n by lia.
  by apply ofInteger_small.
Qed.

Lemma replace_d_decimal (s t : string) :
  all_decimal s = true → replace_d (s ++ String "d" t) = s ++ t.
Proof.
  induction s as [|c s IH]; intros Hs; [reflexivity|].
  simpl in Hs. apply andb_prop in Hs as [Hc Hs].
  rewrite !str_app_cons. simpl.
  destruct (Ascii.eqb_spec c "d") as [->|_]; [done|].
  by rewrite IH.
Qed.

Lemma replace_d_none (s : string) :
  all_decimal s = true → replace_d s = s.
Proof.
  induction s as [|c s IH]; intros Hs; [reflexivity|].
  simpl in Hs. apply andb_prop in Hs as [Hc Hs]. simpl.
  destruct (Ascii.eqb_spec c "d") as [->|_]; [done|].
  by rewrite IH.
Qed.

End Decimal.

(** X1.  For a positive number of days [n] below [2^53], where every integer
    is a double, the period written [n] followed by ['d'], or [n] alone, is
    read back as [n] days. *)
Theorem daysOf_period_round_trip (n : Z) :
  0 < n < 2 ^ 53 →
  MetricsController.daysOf (pretty n ++ "d")
  = MetricsController.Finite n
  ∧ MetricsController.daysOf (pretty n) = MetricsController.Finite n.
Proof.
  intros Hn. unfold MetricsController.daysOf.
  assert (Hdec : all_decimal (pretty n) = true).
  { rewrite pretty_Z_pos by lia. apply all_decimal_pretty_N_go. }
  rewrite replace_d_decimal, replace_d_none, str_app_nil_r by done.
  rewrite parseInt_pretty by done.
  destruct (Z.eqb_spec n 0); [lia | done].
Qed.

Lemma daysOf_period_round_trip_witness :
  MetricsController.daysOf "7d" = MetricsController.Finite 7
  ∧ MetricsController.daysOf "7" = MetricsController.Finite 7.
Proof. apply (daysOf_period_round_trip 7). lia. Defined.

(** X2.  [genOTP] yields six decimal digits, whatever the draw; such a string
    is not empty, so it passes the presence checks of the handlers. *)
Theorem genOTP_six_digits (env : Env) :
  drawn env →
  String.length (AuthController.genOTP env) = 6%nat
  ∧ all_decimal (AuthController.genOTP env) = true
  ∧ Js.truthy (Some (AuthController.genOTP env)) = true
  ∧ ∃ n, 100000 ≤ n ≤ 999999 ∧ AuthController.genOTP env = pretty n.
Proof.
  intros Hdrawn. unfold AuthController.genOTP.
  set (n := Double.nearest
              (100000 * 2 ^ 53 + Double.nearest (random env * 900000))
            `div` 2 ^ 53).
  assert (Hn : 100000 ≤ n ≤ 999999) by (by apply otp_number_bound).
  assert (Hlen : String.length (pretty n) = 6%nat).
  { rewrite pretty_Z_pos by lia.
    apply (pretty_N_go_length 5). change (10 ^ N.of_nat 5)%N with 100000%N.
    change (10 ^ N.of_nat 6)%N with 1000000%N. lia. }
  split; [done|]. split.
  { rewrite pretty_Z_pos by lia. apply all_decimal_pretty_N_go. }
  split; [|by exists n].
  simpl. destruct (String.eqb_spec (pretty n) "") as [Heq|]; [|done].
  by rewrite Heq in Hlen.
Qed.

Lemma genOTP_six_digits_witness :
  String.length (AuthController.genOTP Sample.quiet) = 6%nat
  ∧ all_decimal (AuthController.genOTP Sample.quiet) = true
  ∧ Js.truthy (Some (AuthController.genOTP Sample.quiet)) = true
  ∧ ∃ n, 100000 ≤ n ≤ 999999 ∧ AuthController.genOTP Sample.quiet = pretty n.
Proof.
  apply (genOTP_six_digits Sample.quiet). unfold drawn. simpl. lia.
Defined.

(** Beyond [2^53] the number of days is the nearest double, not the integer
    written: [parseInt('9007199254740993')] is 9007199254740992. *)
Example daysOf_nearest_double :
  MetricsController.daysOf "9007199254740993d"
  = MetricsController.Finite 9007199254740992.
Proof. vm_compute. reflexivity. Qed.

(** A draw at which the rounding of the sum decides the last digit: the
    quotient of the integers would be 124616. *)
Example genOTP_rounded_sum :
  AuthController.genOTP
    (mkEnv (λ _, 0) 246366915615510 "" Sample.no_failure "" None None)
  = "124617"
  ∧ (100000 * 2 ^ 53 + 246366915615510 * 900000) `div` 2 ^ 53 = 124616.
Proof. vm_compute. split; reflexivity. Qed.

(** A period that takes the cutoff out of the range of [Date]: the cutoff is
    an Invalid Date and the three series are empty, although the table has
    rows. *)
Example getTimeSeries_invalid_cutoff :
  MetricsController.sinceOf (H := Cases.utc) (clock Sample.day35 0%nat)
    (MetricsController.daysOf "100000100d") = None
  ∧ MetricsController.getTimeSeries (H := Cases.utc) Sample.day35
      (Some "100000100d") Sample.measured
    = (Ok (mkResponse 200 None None None None (Some (Series.mk [] [] []))),
       Sample.measured).
Proof. vm_compute. split; reflexivity. Qed.

(** Where the offset of the zone changes between the cutoff and the request,
    here from none to one hour on day 20, the cutoff keeps the local time of
    day and is not 30 times 86400000 ms before the request. *)
Example sinceOf_across_offset_change :
  let zone : TimeZone :=
    {| tza_utc t := if Z.leb (20 * 86400000) t then 3600000 else 0;
       tza_local t := if Z.leb (20 * 86400000) t then 3600000 else 0 |} in
  MetricsController.sinceOf (H := zone) (35 * 86400000)
    (MetricsController.Finite 30)
  = Some (35 * 86400000 - 30 * 86400000 + 3600000).
Proof. vm_compute. reflexivity. Qed.

(** * What the handlers answer *)

Ltac run_all :=
  unfold AuthController.register, AuthController.verifyRegistration,
    AuthController.login, AuthController.resendOtp,
    AuthController.verifyOtpReset, MetricsController.getTimeSeries in *;
  unfold AuthController.updateMetrics, MetricsController.Metric_findAll,
    User_findOne, User_findByPk, User_create, User_save,
    PendingUser_findByPk, PendingUser_upsert, PendingUser_save,
    PendingUser_destroy, Metric_findOrCreate, Metric_save, sendMail, jwt_sign,
    hash, compare in *;
  unfold try_catch, bind, call, get, put, ret, throw, console_log in *;
  cbv beta in *;
  repeat (case_match; simplify_eq/=).

(** X24.  No exception leaves a handler: whatever the request and whichever
    library call raises, each handler answers, and with one of a few
    statuses: [register] 200, 400, 409 or 500; [verifyRegistration] 201, 400
    or 500; [login] 200, 400, 401 or 500; [resendOtp] 200, 400 or 500;
    [verifyOtpReset] 200, 400, 404 or 500; [getTimeSeries] 200 or 500. *)
Theorem handlers_always_answer (env : Env) `{Bcrypt} `{TimeZone}
    (body : Body.t) (period : option string) (w : World) :
  (∃ r w', AuthController.register env body w = (Ok r, w')
           ∧ status r ∈ [200; 400; 409; 500])
  ∧ (∃ r w', AuthController.verifyRegistration env body w = (Ok r, w')
             ∧ status r ∈ [201; 400; 500])
  ∧ (∃ r w', AuthController.login env body w = (Ok r, w')
             ∧ status r ∈ [200; 400; 401; 500])
  ∧ (∃ r w', AuthController.resendOtp env body w = (Ok r, w')
             ∧ status r ∈ [200; 400; 500])
  ∧ (∃ r w', AuthController.verifyOtpReset env body w = (Ok r, w')
             ∧ status r ∈ [200; 400; 404; 500])
  ∧ (∃ r w', MetricsController.getTimeSeries env period w = (Ok r, w')
             ∧ status r ∈ [200; 500]).
Proof.
  repeat split.
  all: run_all; eexists _, _; (split; [reflexivity|]); simpl; set_solver.
Qed.

(** Turns the tests a run has passed into the facts they decide. *)
Ltac reflect_tests :=
  repeat match goal with
    | H : negb _ = true |- _ => apply negb_true_iff in H
    | H : negb _ = false |- _ => apply negb_false_iff in H
    | H : _ || _ = false |- _ => apply orb_false_iff in H as [? ?]
    | H : _ && _ = true |- _ => apply andb_true_iff in H as [? ?]
    | H : bool_decide _ = true |- _ => apply bool_decide_eq_true in H
    | H : bool_decide _ = false |- _ => apply bool_decide_eq_false in H
    | H : Z.ltb _ _ = false |- _ => apply Z.ltb_ge in H
    | H : Z.ltb _ _ = true |- _ => apply Z.ltb_lt in H
    | H : Z.eqb _ _ = true |- _ => apply Z.eqb_eq in H
    | H : Z.eqb _ _ = false |- _ => apply Z.eqb_neq in H
    | H : String.eqb _ _ = true |- _ => apply String.eqb_eq in H
    | H : String.eqb _ _ = false |- _ => apply String.eqb_neq in H
    end.

(** X3.  A registration answered 400 or 409 has changed nothing: no row, no
    mail, no line on the console. *)
Theorem register_rejection_leaves_world (env : Env) `{Bcrypt} body w r w' :
  AuthController.register env body w = (Ok r, w') →
  status r = 400 ∨ status r = 409 →
  w' = w.
Proof.
  intros Hrun Hstatus. run_all; try done.
  all: by destruct Hstatus.
Qed.

Lemma register_rejection_leaves_world_witness :
  (AuthController.register (H := Sample.cleartext) Sample.quiet
     Sample.register_a Sample.registered).2 = Sample.registered.
Proof.
  apply (register_rejection_leaves_world (H := Sample.cleartext) Sample.quiet
           Sample.register_a Sample.registered
           (reply 409 "Email already registered")).
  - reflexivity.
  - by right.
Defined.

(** X4.  [login] only reads: whatever the request and whichever call fails,
    the users, the pending rows, the metrics and the sent mail are as
    before. *)
Theorem login_reads_only (env : Env) `{Bcrypt} body w r w' :
  AuthController.login env body w = (Ok r, w') →
  users w' = users w ∧ nextUserId w' = nextUserId w
  ∧ pendings w' = pendings w ∧ metrics w' = metrics w
  ∧ outbox w' = outbox w.
Proof. intros Hrun. run_all; done. Qed.

Lemma login_reads_only_witness :
  let w' := (AuthController.login (H := Sample.cleartext) Sample.quiet
               Sample.login_a Sample.registered).2 in
  users w' = users Sample.registered
  ∧ nextUserId w' = nextUserId Sample.registered
  ∧ pendings w' = pendings Sample.registered
  ∧ metrics w' = metrics Sample.registered
  ∧ outbox w' = outbox Sample.registered.
Proof.
  eapply (login_reads_only (H := Sample.cleartext) Sample.quiet Sample.login_a
            Sample.registered).
  reflexivity.
Defined.

(** X5.  [verifyRegistration] creates a user only from a pending row of the
    request's email that holds the submitted OTP, has not expired, and whose
    email no user has yet; in every other run the users are as before.  It
    never sends mail. *)
Theorem verifyRegistration_creates_only_verified (env : Env) body w r w' :
  AuthController.verifyRegistration env body w = (Ok r, w') →
  outbox w' = outbox w
  ∧ (users w' = users w
     ∨ ∃ e row u,
         Body.email body = Some e
         ∧ pendings w !! e = Some row
         ∧ Body.otp body = Some (PendingUser.otp row)
         ∧ clock env 0%nat ≤ PendingUser.expires row
         ∧ user_by_email w e = None
         ∧ users w' = (users w ++ [u])%list
         ∧ User.email u = e
         ∧ User.id u = nextUserId w).
Proof.
  intros Hrun. run_all; (split; [done|]); try (by left).
  all: right; reflect_tests; eexists _, _, _; split_and!; eauto.
Qed.

Lemma verifyRegistration_creates_only_verified_witness :
  let w' := (AuthController.verifyRegistration Sample.quiet Sample.verify_a
               Sample.awaiting).2 in
  outbox w' = outbox Sample.awaiting
  ∧ (users w' = users Sample.awaiting
     ∨ ∃ e row u,
         Body.email Sample.verify_a = Some e
         ∧ pendings Sample.awaiting !! e = Some row
         ∧ Body.otp Sample.verify_a = Some (PendingUser.otp row)
         ∧ clock Sample.quiet 0%nat ≤ PendingUser.expires row
         ∧ user_by_email Sample.awaiting e = None
         ∧ users w' = (users Sample.awaiting ++ [u])%list
         ∧ User.email u = e
         ∧ User.id u = nextUserId Sample.awaiting).
Proof.
  eapply (verifyRegistration_creates_only_verified Sample.quiet
            Sample.verify_a Sample.awaiting).
  reflexivity.
Defined.

(** X6.  [verifyOtpReset] changes a user only when the user found for the
    email stores the submitted OTP and that OTP has not expired; in every
    other run the users are as before.  It never touches the pending rows,
    the metrics or the mail. *)
Theorem verifyOtpReset_changes_only_verified (env : Env) `{Bcrypt}
    body w r w' :
  AuthController.verifyOtpReset env body w = (Ok r, w') →
  nextUserId w' = nextUserId w ∧ pendings w' = pendings w
  ∧ metrics w' = metrics w ∧ outbox w' = outbox w
  ∧ (users w' = users w
     ∨ ∃ e o p u,
         Body.email body = Some e
         ∧ Body.otp body = Some o
         ∧ Body.newPassword body = Some p
         ∧ p ≠ ""
         ∧ user_by_email w e = Some u
         ∧ User.otp u = Some o
         ∧ clock env 0%nat ≤ default 0 (User.otpExpires u)
         ∧ status r = 200).
Proof.
  intros Hrun. run_all; split_and!; try done; try (by left).
  all: right; reflect_tests.
  all: repeat match goal with
         | H : Js.truthy ?v = true |- _ =>
             apply truthy_Some in H as (? & ? & ?)
         end; simplify_eq/=.
  all: unfold AuthController.expired in *; reflect_tests.
  all: eexists _, _, _, _; split_and!; eauto.
  all: match goal with
       | He : Body.email _ = Some _ |- _ => rewrite He in *
       end; simpl in *; congruence.
Qed.

Lemma verifyOtpReset_changes_only_verified_witness :
  let w' := (AuthController.verifyOtpReset (H := Sample.cleartext)
               Sample.quiet Sample.reset_a Sample.registered).2 in
  nextUserId w' = nextUserId Sample.registered
  ∧ pendings w' = pendings Sample.registered
  ∧ metrics w' = metrics Sample.registered
  ∧ outbox w' = outbox Sample.registered
  ∧ (users w' = users Sample.registered
     ∨ ∃ e o p u,
         Body.email Sample.reset_a = Some e
         ∧ Body.otp Sample.reset_a = Some o
         ∧ Body.newPassword Sample.reset_a = Some p
         ∧ p ≠ ""
         ∧ user_by_email Sample.registered e = Some u
         ∧ User.otp u = Some o
         ∧ clock Sample.quiet 0%nat ≤ default 0 (User.otpExpires u)
         ∧ status (reply 200 "Password updated successfully") = 200).
Proof.
  eapply (verifyOtpReset_changes_only_verified (H := Sample.cleartext)
            Sample.quiet Sample.reset_a Sample.registered).
  reflexivity.
Defined.

(** X7.  [resendOtp] never creates or removes a pending row and never
    touches a user or a metric: the pending keys are as before, rows of other
    emails are untouched, and a mail goes out only to an email that has a
    pending row. *)
Theorem resendOtp_keeps_keys (env : Env) body w r w' :
  AuthController.resendOtp env body w = (Ok r, w') →
  users w' = users w ∧ nextUserId w' = nextUserId w
  ∧ metrics w' = metrics w
  ∧ dom (pendings w') = dom (pendings w)
  ∧ (∀ e, Body.email body ≠ Some e → pendings w' !! e = pendings w !! e)
  ∧ (outbox w' = outbox w
     ∨ ∃ e mail,
         Body.email body = Some e
         ∧ is_Some (pendings w !! e)
         ∧ outbox w' = (outbox w ++ [mail])%list
         ∧ mail_to mail = e).
Proof.
  intros Hrun. run_all; split_and!; try done; try (by left).
  all: try apply dom_alter_L.
  all: try (intros e He; apply lookup_alter_ne; congruence).
  right. eexists _, _. split_and!; eauto.
Qed.

Lemma resendOtp_keeps_keys_witness :
  let w' := (AuthController.resendOtp Cases.again Cases.resend_a
               Sample.awaiting).2 in
  users w' = users Sample.awaiting
  ∧ nextUserId w' = nextUserId Sample.awaiting
  ∧ metrics w' = metrics Sample.awaiting
  ∧ dom (pendings w') = dom (pendings Sample.awaiting)
  ∧ (∀ e, Body.email Cases.resend_a ≠ Some e →
          pendings w' !! e = pendings Sample.awaiting !! e)
  ∧ (outbox w' = outbox Sample.awaiting
     ∨ ∃ e mail,
         Body.email Cases.resend_a = Some e
         ∧ is_Some (pendings Sample.awaiting !! e)
         ∧ outbox w' = (outbox Sample.awaiting ++ [mail])%list
         ∧ mail_to mail = e).
Proof.
  eapply (resendOtp_keeps_keys Cases.again Cases.resend_a Sample.awaiting).
  reflexivity.
Defined.

(** * Consistency of the users table *)

Lemma NoDup_fmap_eq {A B} (f : A → B) (l : list A) x y :
  NoDup (f <$> l) → x ∈ l → y ∈ l → f x = f y → x = y.
Proof.
  induction l as [|a l IH]; intros Hnd Hx Hy Hf; [inversion Hx|].
  rewrite fmap_cons in Hnd. apply NoDup_cons in Hnd as [Hfresh Hnd].
  apply elem_of_cons in Hx as [->|Hx]; apply elem_of_cons in Hy as [->|Hy].
  - done.
  - exfalso. apply Hfresh. rewrite Hf. by apply list_elem_of_fmap_2.
  - exfalso. apply Hfresh. rewrite <- Hf. by apply list_elem_of_fmap_2.
  - by apply IH.
Qed.

Lemma fmap_map_same {A B} (g : A → B) (f : A → A) (l : list A) :
  (∀ x, x ∈ l → g (f x) = g x) → g <$> List.map f l = g <$> l.
Proof.
  induction l as [|a l IH]; intros Hsame; [done|]. simpl.
  rewrite Hsame by left.
  f_equal. apply IH. intros x Hx. apply Hsame. by right.
Qed.

Lemma consistent_create w (u : User.t) ps ms ob co :
  consistent w →
  User.id u = nextUserId w →
  user_by_email w (User.email u) = None →
  consistent (mkWorld (users w ++ [u]) (nextUserId w + 1) ps ms ob co).
Proof.
  intros (Hids & Hemails & Hbelow) Hid Hfree.
  pose proof (proj1 (user_by_email_None _ _) Hfree) as Hnone.
  unfold consistent; simpl. rewrite !fmap_app; simpl. split_and!.
  - apply NoDup_app. split_and!; [done| |apply NoDup_singleton].
    intros i Hi Hi'. apply list_elem_of_singleton in Hi'. subst i.
    apply list_elem_of_fmap in Hi as (x & Hx & Hin).
    apply Hbelow in Hin. lia.
  - apply NoDup_app. split_and!; [done| |apply NoDup_singleton].
    intros m Hm Hm'. apply list_elem_of_singleton in Hm'. subst m.
    apply list_elem_of_fmap in Hm as (x & Hx & Hin).
    by apply (Hnone x).
  - intros x Hx. apply elem_of_app in Hx as [Hx|Hx].
    + apply Hbelow in Hx. lia.
    + apply list_elem_of_singleton in Hx. subst x. lia.
Qed.

Lemma consistent_save w (u u' : User.t) ps ms ob co :
  consistent w →
  u ∈ users w →
  User.id u' = User.id u →
  User.email u' = User.email u →
  consistent
    (mkWorld (List.map (λ x, if Z.eqb (User.id x) (User.id u') then u' else x)
                       (users w))
             (nextUserId w) ps ms ob co).
Proof.
  intros (Hids & Hemails & Hbelow) Hu Hid Hemail.
  assert (Hrow : ∀ x, x ∈ users w →
            (if Z.eqb (User.id x) (User.id u') then u' else x) = u' ∧ x = u
            ∨ (if Z.eqb (User.id x) (User.id u') then u' else x) = x).
  { intros x Hx. destruct (Z.eqb_spec (User.id x) (User.id u')) as [Hx'|];
      [left | by right].
    split; [done|].
    apply (NoDup_fmap_eq User.id (users w)); [done..|congruence]. }
  assert (Hidmap : User.id <$> List.map
            (λ x, if Z.eqb (User.id x) (User.id u') then u' else x) (users w)
            = User.id <$> users w).
  { apply fmap_map_same. intros x _.
    by destruct (Z.eqb_spec (User.id x) (User.id u')). }
  assert (Hemailmap : User.email <$> List.map
            (λ x, if Z.eqb (User.id x) (User.id u') then u' else x) (users w)
            = User.email <$> users w).
  { apply fmap_map_same. intros x Hx.
    destruct (Hrow x Hx) as [[-> ->] | ->]; done. }
  unfold consistent; simpl. rewrite Hidmap, Hemailmap. split_and!; [done..|].
  intros x Hx. apply list_elem_of_In, List.in_map_iff in Hx as (y & <- & Hy).
  apply list_elem_of_In in Hy.
  destruct (Hrow y Hy) as [[-> ->] | ->].
  - rewrite Hid. by apply Hbelow.
  - by apply Hbelow.
Qed.

(** X8.  The five handlers of the controller keep the users table
    consistent: distinct ids, distinct emails, and every id below the next
    one to give out.  This holds for every request and whichever calls
    fail. *)
Theorem handlers_keep_users_consistent (env : Env) `{Bcrypt} body w :
  consistent w →
  consistent (AuthController.register env body w).2
  ∧ consistent (AuthController.verifyRegistration env body w).2
  ∧ consistent (AuthController.login env body w).2
  ∧ consistent (AuthController.resendOtp env body w).2
  ∧ consistent (AuthController.verifyOtpReset env body w).2.
Proof.
  intros Hw. split_and!.
  - run_all; done.
  - run_all; try done.
    all: by apply (consistent_create _ (User.mk _ _ _ _ _ _ _ _ _)).
  - run_all; done.
  - run_all; done.
  - run_all; try done.
    all: match goal with
         | Hf : user_by_email _ _ = Some ?u |- _ =>
             apply user_by_email_Some in Hf as [Hin _];
             by apply (consistent_save _ u (User.mk (User.id u) _ _ _ _ _ _ _ _))
         end.
Qed.

Lemma handlers_keep_users_consistent_witness :
  consistent (AuthController.register (H := Sample.cleartext) Sample.quiet
                Sample.reset_a Sample.registered).2
  ∧ consistent (AuthController.verifyRegistration Sample.quiet Sample.reset_a
                  Sample.registered).2
  ∧ consistent (AuthController.login (H := Sample.cleartext) Sample.quiet
                  Sample.reset_a Sample.registered).2
  ∧ consistent (AuthController.resendOtp Sample.quiet Sample.reset_a
                  Sample.registered).2
  ∧ consistent (AuthController.verifyOtpReset (H := Sample.cleartext)
                  Sample.quiet Sample.reset_a Sample.registered).2.
Proof.
  apply (handlers_keep_users_consistent (H := Sample.cleartext) Sample.quiet).
  unfold consistent; simpl. split_and!; try apply NoDup_singleton.
  intros u Hu. apply list_elem_of_singleton in Hu. subst u. simpl. lia.
Defined.

(** * Registration, step by step *)

(** The run of a registration that passes the checks, up to the sending of
    the mail. *)
Lemma register_run (env : Env) `{Bcrypt} body w u e p :
  Body.username body = Some u →
  Body.email body = Some e →
  Body.password body = Some p →
  u ≠ "" → e ≠ "" → p ≠ "" →
  user_by_email w e = None →
  throws env UserFindOne = false →
  throws env BcryptHash = false →
  throws env PendingUpsert = false →
  let row := PendingUser.mk u (Body.name body) (bcrypt_hash p 10 (salt env))
               (Body.phone body) (default "staff" (Body.role body))
               (AuthController.genOTP env)
               (clock env 0%nat + AuthController.minutes15) in
  let mail := mkMail e (SMTP_USER env) "Your Registration OTP"
                ("Your MANIFEST Registration OTP is "
                 ++ AuthController.genOTP env
                 ++ ". It expires in 15 minutes.") in
  AuthController.register env body w =
    if throws env SendMail
    then (Ok (reply 500 "Server error during registration"),
          mkWorld (users w) (nextUserId w) (<[e := row]> (pendings w))
                  (metrics w) (outbox w)
                  (console w ++ ["Register Error:"]))
    else (Ok (reply 200 "OTP sent to your email"),
          mkWorld (users w) (nextUserId w) (<[e := row]> (pendings w))
                  (metrics w) (outbox w ++ [mail]) (console w)).
Proof.
  intros Hu He Hp Hnu Hne Hnp Hfree T1 T2 T3 row mail.
  unfold AuthController.register.
  rewrite Hu, He, Hp, !truthy_nonempty by done. simpl.
  unfold try_catch.
  rewrite (bind_ok _ _ _ _ _ (User_findOne_ok env e w T1)), Hfree.
  rewrite bool_decide_eq_false_2 by (by intros [? ?]).
  unfold hash.
  erewrite bind_ok; [|by rewrite (bind_ok _ _ _ _ _ (call_ok env _ _ T2))].
  unfold PendingUser_upsert.
  erewrite bind_ok;
    [|by rewrite (bind_ok _ _ _ _ _ (call_ok env _ _ T3))].
  unfold sendMail, bind, call, get, put, ret, console_log; simpl.
  by destruct (throws env SendMail).
Qed.

(** X9.  A registration with username, email and password, for an email that
    no user has, stores one pending row under the email, replacing any
    earlier row of that email and no other row: the row holds the request's
    username, the hash of the password, the role (staff when none is given),
    the OTP drawn and an expiry 15 minutes ahead.  One mail goes to the email
    and carries the OTP; the answer is 200 and no user is created. *)
Theorem register_stores_and_mails (env : Env) `{Bcrypt} body w u e p :
  Body.username body = Some u →
  Body.email body = Some e →
  Body.password body = Some p →
  u ≠ "" → e ≠ "" → p ≠ "" →
  (∀ x, x ∈ users w → User.email x ≠ e) →
  throws env UserFindOne = false →
  throws env BcryptHash = false →
  throws env PendingUpsert = false →
  throws env SendMail = false →
  ∃ row mail w',
    AuthController.register env body w =
      (Ok (reply 200 "OTP sent to your email"), w')
    ∧ pendings w' !! e = Some row
    ∧ (∀ e', e' ≠ e → pendings w' !! e' = pendings w !! e')
    ∧ PendingUser.username row = u
    ∧ PendingUser.passwordHash row = bcrypt_hash p 10 (salt env)
    ∧ PendingUser.role row = default "staff" (Body.role body)
    ∧ PendingUser.otp row = AuthController.genOTP env
    ∧ PendingUser.expires row = clock env 0%nat + 15 * 60 * 1000
    ∧ outbox w' = (outbox w ++ [mail])%list
    ∧ mail_to mail = e
    ∧ mail_text mail =
        "Your MANIFEST Registration OTP is " ++ PendingUser.otp row
        ++ ". It expires in 15 minutes."
    ∧ users w' = users w.
Proof.
  intros Hu He Hp Hnu Hne Hnp Hfree T1 T2 T3 T4.
  apply user_by_email_None in Hfree.
  eexists _, _, _. split.
  { rewrite (register_run env body w u e p) by done. by rewrite T4. }
  simpl. unfold AuthController.minutes15.
  split; [apply lookup_insert_eq|].
  split; [intros e' Hne'; by apply lookup_insert_ne|].
  split_and!; done.
Qed.

Lemma register_stores_and_mails_witness :
  ∃ row mail w',
    AuthController.register (H := Sample.cleartext) Sample.quiet
      Sample.register_a Sample.nowhere =
      (Ok (reply 200 "OTP sent to your email"), w')
    ∧ pendings w' !! "a@x.com" = Some row
    ∧ (∀ e', e' ≠ "a@x.com" →
             pendings w' !! e' = pendings Sample.nowhere !! e')
    ∧ PendingUser.username row = "a"
    ∧ PendingUser.passwordHash row = "salt$p"
    ∧ PendingUser.role row = "staff"
    ∧ PendingUser.otp row = AuthController.genOTP Sample.quiet
    ∧ PendingUser.expires row = 1000 + 15 * 60 * 1000
    ∧ outbox w' = (outbox Sample.nowhere ++ [mail])%list
    ∧ mail_to mail = "a@x.com"
    ∧ mail_text mail =
        "Your MANIFEST Registration OTP is " ++ PendingUser.otp row
        ++ ". It expires in 15 minutes."
    ∧ users w' = users Sample.nowhere.
Proof.
  apply (register_stores_and_mails (H := Sample.cleartext) Sample.quiet
           Sample.register_a Sample.nowhere "a" "a@x.com" "p");
    try reflexivity; try discriminate.
  intros x Hx. inversion Hx.
Defined.

(** X10.  Register, then verify: after a registration as above, a verification
    with the same email and the OTP that was mailed, handled no later than 15
    minutes after the registration, answers 201 and creates the user with the
    username, email, role and password hash of the registration; the pending
    row is gone. *)
Theorem register_then_verify (env env' : Env) `{Bcrypt} body vbody w u e p :
  Body.username body = Some u →
  Body.email body = Some e →
  Body.password body = Some p →
  u ≠ "" → e ≠ "" → p ≠ "" →
  (∀ x, x ∈ users w → User.email x ≠ e) →
  throws env UserFindOne = false →
  throws env BcryptHash = false →
  throws env PendingUpsert = false →
  throws env SendMail = false →
  Body.email vbody = Some e →
  Body.otp vbody = Some (AuthController.genOTP env) →
  clock env' 0%nat ≤ clock env 0%nat + 15 * 60 * 1000 →
  throws env' PendingFindByPk = false →
  throws env' UserFindOne = false →
  throws env' UserCreate = false →
  throws env' PendingDestroy = false →
  ∃ w1 new w2,
    AuthController.register env body w =
      (Ok (reply 200 "OTP sent to your email"), w1)
    ∧ AuthController.verifyRegistration env' vbody w1 =
        (Ok (mkResponse 201 (Some "Registration successful") None None
                        (Some (User.id new)) None), w2)
    ∧ users w2 = (users w ++ [new])%list
    ∧ User.username new = u
    ∧ User.email new = e
    ∧ User.passwordHash new = bcrypt_hash p 10 (salt env)
    ∧ User.role new = default "staff" (Body.role body)
    ∧ pendings w2 !! e = None.
Proof.
  intros Hu He Hp Hnu Hne Hnp Hfree T1 T2 T3 T4 Hve Hvo Hclock T1' T2' T3' T4'.
  apply user_by_email_None in Hfree.
  pose proof (register_run env body w u e p Hu He Hp Hnu Hne Hnp Hfree T1 T2 T3)
    as Hreg.
  rewrite T4 in Hreg. cbv zeta in Hreg.
  set (row := PendingUser.mk u (Body.name body) (bcrypt_hash p 10 (salt env))
               (Body.phone body) (default "staff" (Body.role body))
               (AuthController.genOTP env)
               (clock env 0%nat + AuthController.minutes15)) in *.
  match type of Hreg with _ = (_, ?x) => set (w1 := x) in * end.
  set (new := User.mk (nextUserId w1) (PendingUser.username row)
                (PendingUser.name row) e (PendingUser.passwordHash row)
                (PendingUser.phone row) (PendingUser.role row)
                (Some (PendingUser.otp row)) (Some (PendingUser.expires row))).
  destruct (updateMetrics_nonblocking env'
    (mkWorld (users w1 ++ [new]) (nextUserId w1 + 1) (pendings w1) (metrics w1)
             (outbox w1) (console w1)))
    as (wm & Hm & Hmu & _ & Hmp & _).
  exists w1, new. eexists. split; [exact Hreg|]. split.
  { apply (verifyRegistration_run env' vbody w1 e row); try done.
    all: try apply lookup_insert_eq.
    all: unfold AuthController.minutes15 in *; simpl; lia. }
  simpl. rewrite Hmu, Hmp. simpl. split_and!; try done.
  apply lookup_delete_eq.
Qed.

Lemma register_then_verify_witness :
  ∃ w1 new w2,
    AuthController.register (H := Sample.cleartext) Sample.quiet
      Sample.register_a Sample.nowhere =
      (Ok (reply 200 "OTP sent to your email"), w1)
    ∧ AuthController.verifyRegistration Sample.quiet Sample.verify_a w1 =
        (Ok (mkResponse 201 (Some "Registration successful") None None
                        (Some (User.id new)) None), w2)
    ∧ users w2 = (users Sample.nowhere ++ [new])%list
    ∧ User.username new = "a"
    ∧ User.email new = "a@x.com"
    ∧ User.passwordHash new = "salt$p"
    ∧ User.role new = "staff"
    ∧ pendings w2 !! "a@x.com" = None.
Proof.
  apply (register_then_verify (H := Sample.cleartext) Sample.quiet
           Sample.quiet Sample.register_a Sample.verify_a Sample.nowhere
           "a" "a@x.com" "p");
    try reflexivity; try discriminate.
  intros x Hx. inversion Hx.
Defined.

(** X11.  When the mail cannot be sent, the registration answers 500, yet the
    pending row written before the sending stays, with its OTP: nothing is
    undone. *)
Theorem register_mail_failure_keeps_row (env : Env) `{Bcrypt} body w u e p :
  Body.username body = Some u →
  Body.email body = Some e →
  Body.password body = Some p →
  u ≠ "" → e ≠ "" → p ≠ "" →
  (∀ x, x ∈ users w → User.email x ≠ e) →
  throws env UserFindOne = false →
  throws env BcryptHash = false →
  throws env PendingUpsert = false →
  throws env SendMail = true →
  ∃ row w',
    AuthController.register env body w =
      (Ok (reply 500 "Server error during registration"), w')
    ∧ pendings w' !! e = Some row
    ∧ PendingUser.otp row = AuthController.genOTP env
    ∧ PendingUser.expires row = clock env 0%nat + 15 * 60 * 1000
    ∧ outbox w' = outbox w.
Proof.
  intros Hu He Hp Hnu Hne Hnp Hfree T1 T2 T3 T4.
  apply user_by_email_None in Hfree.
  eexists _, _. split.
  { rewrite (register_run env body w u e p) by done. by rewrite T4. }
  simpl. unfold AuthController.minutes15.
  split; [apply lookup_insert_eq|]. split_and!; done.
Qed.

Lemma register_mail_failure_keeps_row_witness :
  ∃ row w',
    AuthController.register (H := Sample.cleartext) Cases.smtp_down
      Sample.register_a Sample.nowhere =
      (Ok (reply 500 "Server error during registration"), w')
    ∧ pendings w' !! "a@x.com" = Some row
    ∧ PendingUser.otp row = AuthController.genOTP Cases.smtp_down
    ∧ PendingUser.expires row = 1000 + 15 * 60 * 1000
    ∧ outbox w' = outbox Sample.nowhere.
Proof.
  apply (register_mail_failure_keeps_row (H := Sample.cleartext)
           Cases.smtp_down Sample.register_a Sample.nowhere "a" "a@x.com" "p");
    try reflexivity; try discriminate.
  intros x Hx. inversion Hx.
Defined.

(** * Verification: the duplicate guard and a failing clean-up *)

(** X12.  When the pending row of the request is valid (OTP as submitted, not
    expired) but a user already has the email, the verification answers 400,
    creates nothing and deletes the pending row. *)
Theorem verifyRegistration_duplicate_cleans (env : Env) body w e row x :
  Body.email body = Some e →
  pendings w !! e = Some row →
  Body.otp body = Some (PendingUser.otp row) →
  clock env 0%nat ≤ PendingUser.expires row →
  user_by_email w e = Some x →
  throws env PendingFindByPk = false →
  throws env UserFindOne = false →
  throws env PendingDestroy = false →
  AuthController.verifyRegistration env body w =
    (Ok (reply 400 "User already registered."),
     mkWorld (users w) (nextUserId w) (delete e (pendings w)) (metrics w)
             (outbox w) (console w)).
Proof.
  intros He Hrow Hotp Hexp Hfind T1 T2 T3.
  unfold AuthController.verifyRegistration.
  apply try_catch_ok. rewrite He.
  rewrite (bind_ok _ _ _ _ _ (PendingUser_findByPk_ok env e w T1)).
  rewrite Hrow; simpl. rewrite Hotp.
  rewrite bool_decide_eq_true_2 by done. simpl.
  destruct (Z.ltb_spec (PendingUser.expires row) (clock env 0%nat)); [lia|].
  rewrite (bind_ok _ _ _ _ _ (User_findOne_ok env e w T2)).
  rewrite Hfind. rewrite bool_decide_eq_true_2 by (by eexists).
  erewrite bind_ok; [|by apply PendingUser_destroy_ok].
  reflexivity.
Qed.

Lemma verifyRegistration_duplicate_cleans_witness :
  AuthController.verifyRegistration Sample.quiet Sample.verify_a Cases.both =
    (Ok (reply 400 "User already registered."),
     mkWorld (users Cases.both) (nextUserId Cases.both)
             (delete "a@x.com" (pendings Cases.both)) (metrics Cases.both)
             (outbox Cases.both) (console Cases.both)).
Proof.
  apply (verifyRegistration_duplicate_cleans Sample.quiet Sample.verify_a
           Cases.both "a@x.com" Sample.row_a Sample.alice);
    try reflexivity.
  discriminate.
Defined.

(** X13.  When the deletion of the pending row fails after the user has been
    created, the verification answers 500 although the user exists, and the
    pending row stays; verifying again with the same OTP before it expires,
    once the store works, answers 400 'User already registered.', creates no
    second user and deletes the row. *)
Theorem verifyRegistration_failed_cleanup (env env' : Env) body w e row :
  Body.email body = Some e →
  pendings w !! e = Some row →
  Body.otp body = Some (PendingUser.otp row) →
  clock env 0%nat ≤ PendingUser.expires row →
  (∀ u, u ∈ users w → User.email u ≠ e) →
  throws env PendingFindByPk = false →
  throws env UserFindOne = false →
  throws env UserCreate = false →
  throws env PendingDestroy = true →
  clock env' 0%nat ≤ PendingUser.expires row →
  throws env' PendingFindByPk = false →
  throws env' UserFindOne = false →
  throws env' PendingDestroy = false →
  ∃ u w1 w2,
    AuthController.verifyRegistration env body w =
      (Ok (reply 500 "Server error verifying OTP"), w1)
    ∧ users w1 = (users w ++ [u])%list
    ∧ User.email u = e
    ∧ pendings w1 !! e = Some row
    ∧ AuthController.verifyRegistration env' body w1 =
        (Ok (reply 400 "User already registered."), w2)
    ∧ users w2 = users w1
    ∧ pendings w2 !! e = None.
Proof.
  intros He Hrow Hotp Hexp Hnone T1 T2 T3 T4 Hexp' T1' T2' T3'.
  apply user_by_email_None in Hnone.
  set (u := User.mk (nextUserId w) (PendingUser.username row)
              (PendingUser.name row) e (PendingUser.passwordHash row)
              (PendingUser.phone row) (PendingUser.role row)
              (Some (PendingUser.otp row)) (Some (PendingUser.expires row))).
  destruct (updateMetrics_nonblocking env
    (mkWorld (users w ++ [u]) (nextUserId w + 1) (pendings w) (metrics w)
             (outbox w) (console w)))
    as (wm & Hm & Hu & _ & Hp & _).
  simpl in Hu, Hp.
  set (w1 := mkWorld (users wm) (nextUserId wm) (pendings wm) (metrics wm)
               (outbox wm) (console wm ++ ["Verify Registration Error:"])).
  assert (Hrun : AuthController.verifyRegistration env body w =
                 (Ok (reply 500 "Server error verifying OTP"), w1)).
  { unfold AuthController.verifyRegistration.
    erewrite try_catch_throw; [reflexivity|]. rewrite He.
    rewrite (bind_ok _ _ _ _ _ (PendingUser_findByPk_ok env e w T1)).
    rewrite Hrow; simpl. rewrite Hotp.
    rewrite bool_decide_eq_true_2 by done. simpl.
    destruct (Z.ltb_spec (PendingUser.expires row) (clock env 0%nat)); [lia|].
    rewrite (bind_ok _ _ _ _ _ (User_findOne_ok env e w T2)).
    rewrite Hnone. rewrite bool_decide_eq_false_2 by (by intros [? ?]).
    erewrite bind_ok; [|by apply User_create_ok].
    erewrite bind_ok; [|exact Hm].
    apply bind_throw. unfold PendingUser_destroy.
    by rewrite (bind_throw _ _ _ _ _ (call_throw env _ _ T4)). }
  assert (Hfind : user_by_email w1 e = Some u).
  { unfold user_by_email, w1; simpl. rewrite Hu.
    unfold user_by_email in Hnone.
    rewrite (find_app_None _ _ _ Hnone). simpl. by rewrite String.eqb_refl. }
  exists u, w1. eexists. split; [exact Hrun|].
  split; [done|]. split; [done|]. split; [by simpl; rewrite Hp|].
  assert (Hrow1 : pendings w1 !! e = Some row) by (by simpl; rewrite Hp).
  split.
  { unfold AuthController.verifyRegistration.
    apply try_catch_ok. rewrite He.
    rewrite (bind_ok _ _ _ _ _ (PendingUser_findByPk_ok env' e w1 T1')).
    rewrite Hrow1; simpl. rewrite Hotp.
    rewrite bool_decide_eq_true_2 by done. simpl.
    destruct (Z.ltb_spec (PendingUser.expires row) (clock env' 0%nat));
      [lia|].
    rewrite (bind_ok _ _ _ _ _ (User_findOne_ok env' e w1 T2')).
    rewrite Hfind. rewrite bool_decide_eq_true_2 by (by eexists).
    erewrite bind_ok; [|by apply PendingUser_destroy_ok].
    reflexivity. }
  split; [done|]. simpl. apply lookup_delete_eq.
Qed.

Lemma verifyRegistration_failed_cleanup_witness :
  ∃ u w1 w2,
    AuthController.verifyRegistration Cases.destroy_down Sample.verify_a
      Sample.awaiting =
      (Ok (reply 500 "Server error verifying OTP"), w1)
    ∧ users w1 = (users Sample.awaiting ++ [u])%list
    ∧ User.email u = "a@x.com"
    ∧ pendings w1 !! "a@x.com" = Some Sample.row_a
    ∧ AuthController.verifyRegistration Sample.quiet Sample.verify_a w1 =
        (Ok (reply 400 "User already registered."), w2)
    ∧ users w2 = users w1
    ∧ pendings w2 !! "a@x.com" = None.
Proof.
  apply (verifyRegistration_failed_cleanup Cases.destroy_down Sample.quiet
           Sample.verify_a Sample.awaiting "a@x.com" Sample.row_a);
    try reflexivity; try discriminate.
  intros u Hu. inversion Hu.
Defined.

(** * Resending the OTP *)

(** X14.  [resendOtp] for a non-empty email that has a pending row and that
    no user has gives the row the OTP newly drawn and an expiry 15 minutes
    ahead, keeps its other columns, mails the new OTP and answers 200; a
    verification with the new OTP within those 15 minutes then succeeds and
    creates the user, even when the row had expired before the resend.  The
    calls of both requests to the store and to the mailer complete. *)
Theorem resendOtp_renews (env env' : Env) body vbody w e row :
  Body.email body = Some e →
  e ≠ "" →
  pendings w !! e = Some row →
  (∀ u, u ∈ users w → User.email u ≠ e) →
  throws env PendingFindByPk = false →
  throws env PendingSave = false →
  throws env SendMail = false →
  Body.email vbody = Some e →
  Body.otp vbody = Some (AuthController.genOTP env) →
  clock env' 0%nat ≤ clock env 0%nat + 15 * 60 * 1000 →
  throws env' PendingFindByPk = false →
  throws env' UserFindOne = false →
  throws env' UserCreate = false →
  throws env' PendingDestroy = false →
  ∃ row' mail w1 new w2,
    AuthController.resendOtp env body w =
      (Ok (reply 200 "OTP resent successfully"), w1)
    ∧ pendings w1 !! e = Some row'
    ∧ PendingUser.otp row' = AuthController.genOTP env
    ∧ PendingUser.expires row' = clock env 0%nat + 15 * 60 * 1000
    ∧ PendingUser.username row' = PendingUser.username row
    ∧ PendingUser.name row' = PendingUser.name row
    ∧ PendingUser.passwordHash row' = PendingUser.passwordHash row
    ∧ PendingUser.phone row' = PendingUser.phone row
    ∧ PendingUser.role row' = PendingUser.role row
    ∧ outbox w1 = (outbox w ++ [mail])%list
    ∧ mail_to mail = e
    ∧ mail_text mail =
        "Your new OTP is " ++ AuthController.genOTP env
        ++ ". It expires in 15 minutes."
    ∧ AuthController.verifyRegistration env' vbody w1 =
        (Ok (mkResponse 201 (Some "Registration successful") None None
                        (Some (User.id new)) None), w2)
    ∧ users w2 = (users w ++ [new])%list
    ∧ User.email new = e
    ∧ User.passwordHash new = PendingUser.passwordHash row.
Proof.
  intros He Hne Hrow Hnone T1 T2 T3 Hve Hvo Hclock T1' T2' T3' T4'.
  apply user_by_email_None in Hnone.
  set (row' := PendingUser.mk (PendingUser.username row) (PendingUser.name row)
                 (PendingUser.passwordHash row) (PendingUser.phone row)
                 (PendingUser.role row) (AuthController.genOTP env)
                 (clock env 0%nat + AuthController.minutes15)).
  set (mail := mkMail e (SMTP_USER env) "Your New OTP"
                 ("Your new OTP is " ++ AuthController.genOTP env
                  ++ ". It expires in 15 minutes.")).
  set (w1 := mkWorld (users w) (nextUserId w)
               (alter (λ _, row') e (pendings w)) (metrics w)
               (outbox w ++ [mail]) (console w)).
  assert (Hrun : AuthController.resendOtp env body w =
                 (Ok (reply 200 "OTP resent successfully"), w1)).
  { unfold AuthController.resendOtp. apply try_catch_ok.
    rewrite He, truthy_nonempty by done. simpl.
    rewrite (bind_ok _ _ _ _ _ (PendingUser_findByPk_ok env e w T1)).
    rewrite Hrow. unfold PendingUser_save, sendMail.
    erewrite bind_ok; [|by rewrite (bind_ok _ _ _ _ _ (call_ok env _ _ T2))].
    erewrite bind_ok; [|by rewrite (bind_ok _ _ _ _ _ (call_ok env _ _ T3))].
    reflexivity. }
  assert (Hrow' : pendings w1 !! e = Some row').
  { unfold w1; simpl. by rewrite lookup_alter_eq, Hrow. }
  set (new := User.mk (nextUserId w1) (PendingUser.username row')
                (PendingUser.name row') e (PendingUser.passwordHash row')
                (PendingUser.phone row') (PendingUser.role row')
                (Some (PendingUser.otp row'))
                (Some (PendingUser.expires row'))).
  destruct (updateMetrics_nonblocking env'
    (mkWorld (users w1 ++ [new]) (nextUserId w1 + 1) (pendings w1) (metrics w1)
             (outbox w1) (console w1)))
    as (wm & Hm & Hmu & _).
  exists row', mail, w1, new. eexists.
  split; [exact Hrun|]. split; [exact Hrow'|].
  unfold AuthController.minutes15 in *.
  do 10 (split; [done|]).
  split.
  { apply (verifyRegistration_run env' vbody w1 e row'); try done;
      simpl; lia. }
  simpl. by rewrite Hmu.
Qed.

Lemma resendOtp_renews_witness :
  ∃ row' mail w1 new w2,
    AuthController.resendOtp Cases.again Cases.resend_a Sample.awaiting =
      (Ok (reply 200 "OTP resent successfully"), w1)
    ∧ pendings w1 !! "a@x.com" = Some row'
    ∧ PendingUser.otp row' = AuthController.genOTP Cases.again
    ∧ PendingUser.expires row' = 2000000 + 15 * 60 * 1000
    ∧ PendingUser.username row' = PendingUser.username Sample.row_a
    ∧ PendingUser.name row' = PendingUser.name Sample.row_a
    ∧ PendingUser.passwordHash row' = PendingUser.passwordHash Sample.row_a
    ∧ PendingUser.phone row' = PendingUser.phone Sample.row_a
    ∧ PendingUser.role row' = PendingUser.role Sample.row_a
    ∧ outbox w1 = (outbox Sample.awaiting ++ [mail])%list
    ∧ mail_to mail = "a@x.com"
    ∧ mail_text mail =
        "Your new OTP is " ++ AuthController.genOTP Cases.again
        ++ ". It expires in 15 minutes."
    ∧ AuthController.verifyRegistration Cases.again
        (Body.mk None None (Some "a@x.com") None None None
                 (Some (AuthController.genOTP Cases.again)) None) w1 =
        (Ok (mkResponse 201 (Some "Registration successful") None None
                        (Some (User.id new)) None), w2)
    ∧ users w2 = (users Sample.awaiting ++ [new])%list
    ∧ User.email new = "a@x.com"
    ∧ User.passwordHash new = PendingUser.passwordHash Sample.row_a.
Proof.
  apply (resendOtp_renews Cases.again Cases.again Cases.resend_a
           (Body.mk None None (Some "a@x.com") None None None
                    (Some (AuthController.genOTP Cases.again)) None)
           Sample.awaiting "a@x.com" Sample.row_a);
    try reflexivity; try discriminate.
  intros u Hu. inversion Hu.
Defined.

(** * After a password reset *)

Lemma find_saved_first (l : list User.t) (u u' : User.t) e :
  List.find (λ x, String.eqb (User.email x) e) l = Some u →
  User.email u' = e →
  List.find (λ x, String.eqb (User.email x) e)
    (List.map (λ x, if Z.eqb (User.id x) (User.id u) then u' else x) l)
  = Some u'.
Proof.
  intros Hfind He. induction l as [|x l IH]; [done|].
  simpl in *. destruct (String.eqb_spec (User.email x) e) as [Hx|Hx].
  - injection Hfind as ->. by rewrite Z.eqb_refl, He, String.eqb_refl.
  - destruct (Z.eqb_spec (User.id x) (User.id u)).
    + by rewrite He, String.eqb_refl.
    + destruct (String.eqb_spec (User.email x) e); [done|]. by apply IH.
Qed.

(** X15.  The OTP of a reset works once: after a reset has succeeded, every
    further reset request for that email is answered 400 and changes
    nothing, whatever OTP and new password it carries. *)
Theorem verifyOtpReset_single_use (env env' : Env) `{Bcrypt}
    body body' w e o p u t :
  Body.email body = Some e →
  Body.otp body = Some o →
  Body.newPassword body = Some p →
  e ≠ "" → o ≠ "" → p ≠ "" →
  user_by_email w e = Some u →
  User.otp u = Some o →
  User.otpExpires u = Some t →
  clock env 0%nat ≤ t →
  throws env UserFindOne = false →
  throws env BcryptHash = false →
  throws env UserSave = false →
  Body.email body' = Some e →
  throws env' UserFindOne = false →
  ∃ w1 r,
    AuthController.verifyOtpReset env body w =
      (Ok (reply 200 "Password updated successfully"), w1)
    ∧ AuthController.verifyOtpReset env' body' w1 = (Ok r, w1)
    ∧ status r = 400.
Proof.
  intros He Ho Hp Hne Hno Hnp Hfind Hotp Hexp Hle T1 T2 T3 He' T1'.
  pose proof (verifyOtpReset_run env body w e o p u t He Ho Hp Hne Hno Hnp
                Hfind Hotp Hexp Hle T1 T2 T3) as Hrun.
  match type of Hrun with _ = (_, ?x) => set (w1 := x) in * end.
  assert (Hfind' : user_by_email w1 e =
            Some (User.mk (User.id u) (User.username u) (User.name u)
                    (User.email u) (bcrypt_hash p 10 (salt env))
                    (User.phone u) (User.role u) None None)).
  { unfold user_by_email, w1; simpl. apply find_saved_first; [done|].
    simpl. by apply user_by_email_Some in Hfind as [_ ?]. }
  exists w1.
  assert (Hsecond : ∃ r, AuthController.verifyOtpReset env' body' w1 = (Ok r, w1)
                         ∧ status r = 400).
  { unfold AuthController.verifyOtpReset.
    rewrite He', truthy_nonempty by done. simpl.
    destruct (Js.truthy (Body.otp body')); simpl;
      [|eexists; split; [by apply try_catch_ok | reflexivity]].
    destruct (Js.truthy (Body.newPassword body')); simpl;
      [|eexists; split; [by apply try_catch_ok | reflexivity]].
    eexists. split.
    { apply try_catch_ok.
      rewrite (bind_ok _ _ _ _ _ (User_findOne_ok env' e w1 T1')), Hfind'.
      reflexivity. }
    reflexivity. }
  destruct Hsecond as (r & Hr & Hs). by exists r.
Qed.

Lemma verifyOtpReset_single_use_witness :
  ∃ w1 r,
    AuthController.verifyOtpReset (H := Sample.cleartext) Sample.quiet
      Sample.reset_a Sample.registered =
      (Ok (reply 200 "Password updated successfully"), w1)
    ∧ AuthController.verifyOtpReset (H := Sample.cleartext) Sample.quiet
        Sample.reset_a w1 = (Ok r, w1)
    ∧ status r = 400.
Proof.
  apply (verifyOtpReset_single_use (H := Sample.cleartext) Sample.quiet
           Sample.quiet Sample.reset_a Sample.reset_a Sample.registered
           "a@x.com" "550000" "n3w" Sample.alice 901000);
    try reflexivity; discriminate.
Defined.

(** X16.  Reset, then log in: when bcrypt accepts the new password against the
    hash it has just made of it, a login with the email and the new password
    after a successful reset is answered with a token for that user. *)
Theorem reset_then_login (env env' : Env) `{Bcrypt} body lbody w e o p u t :
  Body.email body = Some e →
  Body.otp body = Some o →
  Body.newPassword body = Some p →
  e ≠ "" → o ≠ "" → p ≠ "" →
  user_by_email w e = Some u →
  User.otp u = Some o →
  User.otpExpires u = Some t →
  clock env 0%nat ≤ t →
  throws env UserFindOne = false →
  throws env BcryptHash = false →
  throws env UserSave = false →
  bcrypt_compare p (bcrypt_hash p 10 (salt env)) = true →
  Body.email lbody = Some e →
  Body.password lbody = Some p →
  throws env' UserFindOne = false →
  throws env' BcryptCompare = false →
  throws env' JwtSign = false →
  ∃ w1 tok payload,
    AuthController.verifyOtpReset env body w =
      (Ok (reply 200 "Password updated successfully"), w1)
    ∧ AuthController.login env' lbody w1 =
        (Ok (mkResponse 200 None (Some tok) (Some payload) None None), w1)
    ∧ jwt_decode tok = payload
    ∧ Payload.id payload = User.id u
    ∧ Payload.email payload = e.
Proof.
  intros He Ho Hp Hne Hno Hnp Hfind Hotp Hexp Hle T1 T2 T3 Hlaw Hle' Hlp
    T1' T2' T3'.
  pose proof (verifyOtpReset_run env body w e o p u t He Ho Hp Hne Hno Hnp
                Hfind Hotp Hexp Hle T1 T2 T3) as Hrun.
  match type of Hrun with _ = (_, ?x) => set (w1 := x) in * end.
  set (u' := User.mk (User.id u) (User.username u) (User.name u)
               (User.email u) (bcrypt_hash p 10 (salt env))
               (User.phone u) (User.role u) None None).
  assert (Hemail : User.email u = e)
    by (by apply user_by_email_Some in Hfind as [_ ?]).
  assert (Hfind' : user_by_email w1 e = Some u').
  { unfold user_by_email, w1; simpl. by apply find_saved_first. }
  set (payload := Payload.mk (User.id u') (User.username u') (User.role u')
                             (User.email u')).
  exists w1,
    (Signed payload (JWT_SECRET env') (Js.or_else (JWT_EXPIRES_IN env') "7d")),
    payload.
  split; [exact Hrun|]. split; [|done].
  unfold AuthController.login. apply try_catch_ok.
  rewrite Hle', Hlp, !truthy_nonempty by done. simpl.
  rewrite (bind_ok _ _ _ _ _ (User_findOne_ok env' e w1 T1')), Hfind'.
  unfold compare.
  erewrite bind_ok; [|by rewrite (bind_ok _ _ _ _ _ (call_ok env' _ _ T2'))].
  simpl. rewrite Hlaw. simpl. unfold jwt_sign.
  erewrite bind_ok; [|by rewrite (bind_ok _ _ _ _ _ (call_ok env' _ _ T3'))].
  reflexivity.
Qed.

Lemma reset_then_login_witness :
  ∃ w1 tok payload,
    AuthController.verifyOtpReset (H := Sample.cleartext) Sample.quiet
      Sample.reset_a Sample.registered =
      (Ok (reply 200 "Password updated successfully"), w1)
    ∧ AuthController.login (H := Sample.cleartext) Sample.quiet
        Cases.login_a_new w1 =
        (Ok (mkResponse 200 None (Some tok) (Some payload) None None), w1)
    ∧ jwt_decode tok = payload
    ∧ Payload.id payload = User.id Sample.alice
    ∧ Payload.email payload = "a@x.com".
Proof.
  apply (reset_then_login (H := Sample.cleartext) Sample.quiet Sample.quiet
           Sample.reset_a Cases.login_a_new Sample.registered
           "a@x.com" "550000" "n3w" Sample.alice 901000);
    try reflexivity; discriminate.
Defined.

(** * The metrics a verification leaves, and the series that shows them *)







(** X19.  [getTimeSeries] only reads: the tables and the mail are as before
    in every run; it answers 200 with a series exactly when the query
    completes, and 500 without one when it raises. *)
Theorem getTimeSeries_reads_only (env : Env) `{TimeZone}
    (period : option string) w r w' :
  MetricsController.getTimeSeries env period w = (Ok r, w') →
  users w' = users w ∧ nextUserId w' = nextUserId w
  ∧ pendings w' = pendings w ∧ metrics w' = metrics w
  ∧ outbox w' = outbox w
  ∧ (throws env MetricFindAll = false → status r = 200 ∧ is_Some (data r))
  ∧ (throws env MetricFindAll = true →
     r = reply 500 "Server error" ∧ data r = None).
Proof.
  intros Hrun. run_all; split_and!; try done; try (by intros _; eauto).
Qed.

Lemma getTimeSeries_reads_only_witness :
  let run := MetricsController.getTimeSeries (H := Cases.utc) Sample.day35
               None Sample.measured in
  users run.2 = users Sample.measured
  ∧ nextUserId run.2 = nextUserId Sample.measured
  ∧ pendings run.2 = pendings Sample.measured
  ∧ metrics run.2 = metrics Sample.measured
  ∧ outbox run.2 = outbox Sample.measured.
Proof.
  intros run.
  destruct (getTimeSeries_reads_only (H := Cases.utc) Sample.day35 None
              Sample.measured
              (mkResponse 200 None None None None
                 (Some (Series.mk [mkPoint 5 1; mkPoint 10 7]
                                  [mkPoint 5 2; mkPoint 10 8]
                                  [mkPoint 5 3; mkPoint 10 9])))
              run.2)
    as (Hu & Hn & Hp & Hm & Ho & _); [reflexivity|].
  by split_and!.
Defined.

(** * The middleware *)

(** X20.  The two shortcuts decide as the general gate does with the one role:
    [isAdmin] hands on exactly the requests that [requireRole('admin')] hands
    on, [isStaff] those of [requireRole('staff')]; both answer 403
    otherwise, and no request passes both. *)
Theorem role_shortcuts_agree (user : option User.t) :
  (AuthMiddleware.isAdmin user = AuthMiddleware.Next
   ↔ AuthMiddleware.requireRole ["admin"] user = AuthMiddleware.Next)
  ∧ (AuthMiddleware.isStaff user = AuthMiddleware.Next
     ↔ AuthMiddleware.requireRole ["staff"] user = AuthMiddleware.Next)
  ∧ (AuthMiddleware.isAdmin user = AuthMiddleware.Next
     ∨ AuthMiddleware.isAdmin user
       = AuthMiddleware.Respond (reply 403 "Admin access only"))
  ∧ (AuthMiddleware.isStaff user = AuthMiddleware.Next
     ∨ AuthMiddleware.isStaff user
       = AuthMiddleware.Respond (reply 403 "Staff access only"))
  ∧ ¬ (AuthMiddleware.isAdmin user = AuthMiddleware.Next
       ∧ AuthMiddleware.isStaff user = AuthMiddleware.Next).
Proof.
  unfold AuthMiddleware.isAdmin, AuthMiddleware.isStaff,
    AuthMiddleware.requireRole, AuthMiddleware.denied, AuthMiddleware.includes.
  assert (Hadmin : ∀ role : string,
            bool_decide (role ∈ ["admin"]) = String.eqb role "admin").
  { intros role. destruct (String.eqb_spec role "admin") as [->|Hne].
    - apply bool_decide_eq_true_2. left.
    - apply bool_decide_eq_false_2. by intros Hin%list_elem_of_singleton. }
  assert (Hstaff : ∀ role : string,
            bool_decide (role ∈ ["staff"]) = String.eqb role "staff").
  { intros role. destruct (String.eqb_spec role "staff") as [->|Hne].
    - apply bool_decide_eq_true_2. left.
    - apply bool_decide_eq_false_2. by intros Hin%list_elem_of_singleton. }
  destruct user as [u|]; simpl.
  - rewrite Hadmin, Hstaff.
    destruct (String.eqb_spec (User.role u) "admin") as [Ha|Ha];
      destruct (String.eqb_spec (User.role u) "staff") as [Hs|Hs]; simpl;
      try congruence.
    all: split_and!; try done; try (by left); try (by right).
    all: by intros [? ?].
  - split_and!; try done; try (by right). by intros [? ?].
Qed.

(** X21.  Listing more roles never turns a pass into a refusal, and a gate with
    no role refuses every request. *)
Theorem requireRole_more_roles (roles roles' : list string)
    (user : option User.t) :
  roles ⊆ roles' →
  (AuthMiddleware.requireRole roles user = AuthMiddleware.Next →
   AuthMiddleware.requireRole roles' user = AuthMiddleware.Next)
  ∧ AuthMiddleware.requireRole [] user
    = AuthMiddleware.Respond (reply 403 "Access denied").
Proof.
  intros Hsub.
  unfold AuthMiddleware.requireRole, AuthMiddleware.denied,
    AuthMiddleware.includes.
  destruct user as [u|]; simpl; [|done]. split.
  - destruct (bool_decide (User.role u ∈ roles)) eqn:Hin; [|done].
    apply bool_decide_eq_true in Hin. intros _.
    by rewrite bool_decide_eq_true_2 by (by apply Hsub).
  - done.
Qed.

Lemma requireRole_more_roles_witness :
  (AuthMiddleware.requireRole ["admin"] (Some Sample.admin_bob)
   = AuthMiddleware.Next →
   AuthMiddleware.requireRole ["staff"; "admin"] (Some Sample.admin_bob)
   = AuthMiddleware.Next)
  ∧ AuthMiddleware.requireRole [] (Some Sample.admin_bob)
    = AuthMiddleware.Respond (reply 403 "Access denied").
Proof.
  apply (requireRole_more_roles ["admin"] ["staff"; "admin"]
           (Some Sample.admin_bob)).
  intros r Hr. apply list_elem_of_singleton in Hr. subst r. right. left.
Defined.

Lemma find_id_Some (l : list User.t) i u :
  List.find (λ x, Z.eqb (User.id x) i) l = Some u → u ∈ l ∧ User.id u = i.
Proof.
  intros Hfind. apply List.find_some in Hfind as [Hin Heq].
  split; [by apply list_elem_of_In | by apply Z.eqb_eq].
Qed.

(** X22.  [authMiddleware] hands a request on only with a user attached, and
    that user is a stored user whose id is the id in the payload that
    [jwt.verify] returned for the token of a header starting with
    ['Bearer ']; every other request is answered 401 with no user attached.
    No run changes a table. *)
Theorem authMiddleware_attaches_verified_user (env : Env) `{JwtVerify}
    (authorization : option string) w attached result w' :
  Authentication.authMiddleware env authorization w
  = (Ok (attached, result), w') →
  users w' = users w ∧ pendings w' = pendings w ∧ metrics w' = metrics w
  ∧ outbox w' = outbox w
  ∧ (result = AuthMiddleware.Next →
     ∃ header token payload u,
       authorization = Some header
       ∧ Authentication.startsWith header "Bearer " = true
       ∧ Authentication.tokenOf header = Some token
       ∧ jwt_verify token (JWT_SECRET env) (clock env 0%nat) = Some payload
       ∧ attached = Some u
       ∧ u ∈ users w
       ∧ User.id u = Payload.id payload)
  ∧ (∀ r, result = AuthMiddleware.Respond r →
          status r = 401 ∧ attached = None).
Proof.
  intros Hrun.
  unfold Authentication.authMiddleware, Authentication.verify, User_findByPk,
    try_catch, bind, call, get, ret, console_log in Hrun.
  cbv beta in Hrun.
  repeat (case_match; simplify_eq/=); split_and!; try done.
  all: try (by intros r [= <-]).
  intros _. reflect_tests.
  match goal with
  | Ht : Js.truthy _ = true |- _ => apply truthy_Some in Ht as (h & -> & _)
  end.
  match goal with
  | Hf : List.find _ _ = Some _ |- _ => apply find_id_Some in Hf as [? ?]
  end.
  eexists _, _, _, _. split_and!; eauto.
Qed.

Lemma authMiddleware_attaches_verified_user_witness :
  let run := Authentication.authMiddleware (H := Cases.by_id) Sample.quiet
               (Some "Bearer 1") Sample.registered in
  users run.2 = users Sample.registered
  ∧ pendings run.2 = pendings Sample.registered
  ∧ metrics run.2 = metrics Sample.registered
  ∧ outbox run.2 = outbox Sample.registered
  ∧ ∃ header token payload u,
      Some "Bearer 1" = Some header
      ∧ Authentication.startsWith header "Bearer " = true
      ∧ Authentication.tokenOf header = Some token
      ∧ jwt_verify (JwtVerify := Cases.by_id) token (JWT_SECRET Sample.quiet)
          (clock Sample.quiet 0%nat) = Some payload
      ∧ Some Sample.alice = Some u
      ∧ u ∈ users Sample.registered
      ∧ User.id u = Payload.id payload.
Proof.
  intros run.
  destruct (authMiddleware_attaches_verified_user (H := Cases.by_id)
              Sample.quiet (Some "Bearer 1") Sample.registered
              (Some Sample.alice) AuthMiddleware.Next run.2)
    as (Hu & Hp & Hm & Ho & Hnext & _); [reflexivity|].
  split_and!; try done. by apply Hnext.
Defined.

Lemma split_no_space (tok : string) :
  forallb (λ c, negb (Ascii.eqb c " ")) (list_ascii_of_string tok) = true →
  Authentication.split " " tok = [tok].
Proof.
  induction tok as [|c tok IH]; intros Hns; [done|].
  simpl in Hns. apply andb_prop in Hns as [Hc Hns]. simpl.
  apply negb_true_iff in Hc. rewrite Hc, IH by done. done.
Qed.

Lemma split_app_space (tok rest : string) :
  forallb (λ c, negb (Ascii.eqb c " ")) (list_ascii_of_string tok) = true →
  Authentication.split " " (tok ++ String " " rest)
  = tok :: Authentication.split " " rest.
Proof.
  induction tok as [|c tok IH]; intros Hns; [done|].
  simpl in Hns. apply andb_prop in Hns as [Hc Hns].
  rewrite str_app_cons. simpl.
  apply negb_true_iff in Hc. rewrite Hc, IH by done. done.
Qed.

(** X23.  The token is the text between the first and the second space of the
    header: for a token text without a space, whatever follows a space after
    it is ignored, and the request is treated as the one whose header ends
    with the token. *)
Theorem authMiddleware_reads_one_token (env : Env) `{JwtVerify}
    (tok rest : string) w :
  forallb (λ c, negb (Ascii.eqb c " ")) (list_ascii_of_string tok) = true →
  Authentication.tokenOf ("Bearer " ++ tok) = Some tok
  ∧ Authentication.tokenOf ("Bearer " ++ tok ++ " " ++ rest) = Some tok
  ∧ Authentication.authMiddleware env
      (Some ("Bearer " ++ tok ++ " " ++ rest)) w
    = Authentication.authMiddleware env (Some ("Bearer " ++ tok)) w.
Proof.
  intros Hns.
  assert (H1 : Authentication.tokenOf ("Bearer " ++ tok) = Some tok).
  { unfold Authentication.tokenOf.
    change ("Bearer " ++ tok) with ("Bearer" ++ String " " tok).
    rewrite split_app_space by done. by rewrite split_no_space. }
  assert (H2 : Authentication.tokenOf ("Bearer " ++ tok ++ " " ++ rest)
               = Some tok).
  { unfold Authentication.tokenOf.
    change ("Bearer " ++ tok ++ " " ++ rest)
      with ("Bearer" ++ String " " (tok ++ String " " rest)).
    rewrite split_app_space by done. by rewrite split_app_space. }
  split; [done|]. split; [done|].
  assert (Hhead : ∀ s : string,
            negb (Js.truthy (Some ("Bearer " ++ s)))
            || negb (Authentication.startsWith ("Bearer " ++ s) "Bearer ")
            = false) by (by intros [|c s]).
  unfold Authentication.authMiddleware.
  change (Js.str (Some ?s)) with s.
  rewrite H1, H2, (Hhead tok), (Hhead (tok ++ " " ++ rest)). reflexivity.
Qed.

Lemma authMiddleware_reads_one_token_witness :
  Authentication.tokenOf ("Bearer " ++ "1") = Some "1"
  ∧ Authentication.tokenOf ("Bearer " ++ "1" ++ " " ++ "x y") = Some "1"
  ∧ Authentication.authMiddleware (H := Cases.by_id) Sample.quiet
      (Some ("Bearer " ++ "1" ++ " " ++ "x y")) Sample.registered
    = Authentication.authMiddleware (H := Cases.by_id) Sample.quiet
        (Some ("Bearer " ++ "1")) Sample.registered.
Proof.
  apply (authMiddleware_reads_one_token (H := Cases.by_id) Sample.quiet
           "1" "x y" Sample.registered).
  reflexivity.
Defined.
